(** * Owner resolution and Projects V2 operations of github-mcp-server

    A shallow embedding of [pkg/github]: the error classifier
    [isGraphQLNotFound], the owner resolver [resolveOwnerID] and the seven
    Projects V2 operations ([ListOrganizationProjects] ...
    [UpdateProjectItemField]), with the network, the process environment and
    the client factory made explicit as a logged state. *)

From Stdlib Require Import String Ascii List ZArith Bool Lia.
Import ListNotations.
Open Scope string_scope.

(** ** Go values used by the package *)

Module Go.

(** Go's [error] values as the package builds them: [errors.New(msg)] and
    [fmt.Errorf(ctx + ": %w", cause)].  A nil error is [None] in
    [option error]. *)
Inductive error : Type :=
| errors_New (msg : string)
| fmt_Errorf_w (ctx : string) (cause : error).

(** [err.Error()] *)
Fixpoint Error (e : error) : string :=
  match e with
  | errors_New msg => msg
  | fmt_Errorf_w ctx cause => ctx ++ ": " ++ Error cause
  end.

(** [errors.Unwrap] *)
Definition Unwrap (e : error) : option error :=
  match e with
  | errors_New _ => None
  | fmt_Errorf_w _ cause => Some cause
  end.

(** [strings.HasPrefix(s, prefix)] on byte strings. *)
Fixpoint HasPrefix (s prefix : string) {struct prefix} : bool :=
  match prefix with
  | EmptyString => true
  | String c prefix' =>
      match s with
      | EmptyString => false
      | String d s' => Ascii.eqb c d && HasPrefix s' prefix'
      end
  end.

(** [strings.Contains(s, substr)]: [substr] occurs at some offset of [s]. *)
Fixpoint Contains (s substr : string) : bool :=
  HasPrefix s substr ||
  match s with
  | EmptyString => false
  | String _ s' => Contains s' substr
  end.

(** [ghv4.ID] is [interface{}]: nil, or the string decoded from the
    response (or converted from a Go string). *)
Definition ID : Type := option string.

(** [fmt.Sprint] of an [ID]. *)
Definition fmt_Sprint (id : ID) : string :=
  match id with
  | None => "<nil>"
  | Some s => s
  end.

(** How a call ends: it returns a value, or it panics.  Nothing in the
    package recovers a panic, so a panic ends the operation and its
    caller. *)
Inductive Outcome (A : Type) : Type :=
| Returned (a : A)
| Panicked.

Arguments Returned {A} _.
Arguments Panicked {A}.

(** [ghv4.URI] is [struct{ *url.URL }]: the pointer is nil until a URL is
    decoded into it; a decoded URL is given by the text its [String()]
    returns. *)
Record URI : Type := mkURI { URI_URL : option string }.

(** [u.String()], the method of the embedded [*url.URL]: a nil pointer
    dereference, hence a panic, when the pointer is nil. *)
Definition URI_String (u : URI) : Outcome string :=
  match URI_URL u with
  | Some text => Returned text
  | None => Panicked
  end.

(** [ghv4.Int(n)]: conversion of an [int] to [int32], wrapping around. *)
Definition Int (n : Z) : Z := ((n + 2147483648) mod 4294967296 - 2147483648)%Z.

(** A Go slice: nil ([None]) or a (possibly empty) sequence. *)
Definition slice (A : Type) : Type := option (list A).

(** The elements a [for ... range] loop visits. *)
Definition elems {A : Type} (s : slice A) : list A :=
  match s with
  | None => []
  | Some l => l
  end.

(** [append(s, x)]: never nil. *)
Definition append {A : Type} (s : slice A) (x : A) : slice A :=
  Some (elems s ++ [x])%list.

End Go.
Import Go.

(** ** Error classifier (isGraphQLNotFound) *)

Definition isGraphQLNotFound (err : option error) : bool :=
  match err with
  | None => false
  | Some e =>
      let msg := Error e in
      Contains msg "could not resolve to a User" ||
      Contains msg "could not resolve to an Organization" ||
      Contains msg "non-200 OK status code: 400" ||
      Contains msg "non-200 OK status code: 404"
  end.

(** The registered phrases, as the specification lists them. *)
Definition notFoundPhrases : list string :=
  [ "could not resolve to a User";
    "could not resolve to an Organization";
    "non-200 OK status code: 400";
    "non-200 OK status code: 404" ].

(** [phrase] occurs somewhere inside [msg]. *)
Definition Substring (phrase msg : string) : Prop :=
  exists pre post, msg = pre ++ phrase ++ post.

(** The message of [e] contains one of the registered phrases. *)
Definition matchesNotFoundPhrase (e : error) : Prop :=
  Exists (fun phrase => Substring phrase (Error e)) notFoundPhrases.

(** ** Data model (projects.go) *)

Module ListOrganizationProjectsInput.
Record t : Type := mk { Organization : string; First : Z; After : string }.
End ListOrganizationProjectsInput.

Module Project.
Record t : Type := mk { ID : string; Number : Z; Title : string; URL : string }.
End Project.

Module ListOrganizationProjectsOutput.
Record t : Type :=
  mk { Projects : slice Project.t; EndCursor : string; HasNextPage : bool }.
Definition set_Projects (o : t) (ps : slice Project.t) : t :=
  mk ps (EndCursor o) (HasNextPage o).
End ListOrganizationProjectsOutput.

Module ListUserProjectsInput.
Record t : Type := mk { User : string; First : Z; After : string }.
End ListUserProjectsInput.

Module GetProjectInput.
Record t : Type := mk { Owner : string; Number : Z }.
End GetProjectInput.

Module GetProjectItemsInput.
Record t : Type := mk { ProjectID : string; First : Z; After : string }.
End GetProjectItemsInput.

Module ProjectItem.
Record t : Type :=
  mk { ID : string; ContentID : string; ContentType : string;
       Title : string; State : string; URL : string }.
End ProjectItem.

Module GetProjectItemsOutput.
Record t : Type :=
  mk { Items : slice ProjectItem.t; EndCursor : string; HasNextPage : bool }.
Definition set_Items (o : t) (it : slice ProjectItem.t) : t :=
  mk it (EndCursor o) (HasNextPage o).
End GetProjectItemsOutput.

Module CreateProjectInput.
Record t : Type := mk { Owner : string; Title : string; Description : string }.
End CreateProjectInput.

Module AddProjectItemInput.
Record t : Type := mk { ProjectID : string; ContentID : string }.
End AddProjectItemInput.

Module AddProjectItemOutput.
Record t : Type := mk { Item : ProjectItem.t }.
End AddProjectItemOutput.

Module UpdateProjectItemFieldInput.
Record t : Type :=
  mk { ProjectID : string; ItemID : string; FieldID : string; Value : string }.
End UpdateProjectItemFieldInput.

Module UpdateProjectItemFieldOutput.
Record t : Type := mk { Item : ProjectItem.t }.
End UpdateProjectItemFieldOutput.

(** ** Shapes the transport client decodes into

    The anonymous structs the functions pass to [client.Query] and
    [client.Mutate].  A pointer field is an [option]; a zero value is what
    the struct holds before the call. *)

(** [struct{ ID ghv4.ID }] *)
Module IDNode.
Record t : Type := mk { ID : Go.ID }.
End IDNode.

(** [orgQ] of [resolveOwnerID] *)
Module OrgQ.
Record t : Type := mk { Organization : option IDNode.t }.
End OrgQ.

(** [userQ] of [resolveOwnerID] *)
Module UserQ.
Record t : Type := mk { User : option IDNode.t }.
End UserQ.

(** [ownerQ] of [CreateProject]: both roots in one query. *)
Module OwnerQ.
Record t : Type :=
  mk { Organization : option IDNode.t; User : option IDNode.t }.
End OwnerQ.

(** [struct{ ID ghv4.ID; Number ghv4.Int; Title ghv4.String; URL ghv4.URI }] *)
Module ProjectNode.
Record t : Type := mk { ID : Go.ID; Number : Z; Title : string; URL : URI }.
Definition zero : t := mk None 0%Z "" (mkURI None).
End ProjectNode.

Module PageInfo.
Record t : Type := mk { EndCursor : string; HasNextPage : bool }.
Definition zero : t := mk "" false.
End PageInfo.

(** [q.Organization.ProjectsV2] and [q.User.ProjectsV2] of the list
    operations. *)
Module ProjectsV2.
Record t : Type := mk { Nodes : slice ProjectNode.t; PageInfo : PageInfo.t }.
End ProjectsV2.

(** [*struct{ ProjectV2 *struct{...} }] under each root of [GetProject]. *)
Module OwnerProject.
Record t : Type := mk { ProjectV2 : option ProjectNode.t }.
End OwnerProject.

Module ProjectQ.
Record t : Type :=
  mk { Organization : option OwnerProject.t; User : option OwnerProject.t }.
End ProjectQ.

(** The [content] union of a project item. *)
Module Content.
Record t : Type :=
  mk { Typename : string; ID : Go.ID; Title : string; State : string;
       URL : URI }.
Definition zero : t := mk "" None "" "" (mkURI None).
End Content.

(** A node of [q.Node.ProjectV2.Items]: the content is held by value. *)
Module ItemNode.
Record t : Type := mk { ID : Go.ID; Content : Content.t }.
End ItemNode.

Module Items.
Record t : Type := mk { Nodes : slice ItemNode.t; PageInfo : PageInfo.t }.
End Items.

(** [m.AddProjectV2ItemById.Item]: the content is a pointer. *)
Module AddedItem.
Record t : Type := mk { ID : Go.ID; Content : option Content.t }.
End AddedItem.

(** ** Requests *)

(** The query shapes of the package with their variables. *)
Inductive QueryShape : Type :=
| QOrganizationID (login : string)
| QUserID (login : string)
| QOwnerID (login : string)
| QOrganizationProjects (org : string) (first : Z) (after : string)
| QUserProjects (login : string) (first : Z) (after : string)
| QProject (owner : string) (number : Z)
| QProjectItems (id : ID) (first : Z) (after : string).

Definition Decoded (q : QueryShape) : Type :=
  match q with
  | QOrganizationID _ => OrgQ.t
  | QUserID _ => UserQ.t
  | QOwnerID _ => OwnerQ.t
  | QOrganizationProjects _ _ _ => ProjectsV2.t
  | QUserProjects _ _ _ => ProjectsV2.t
  | QProject _ _ => ProjectQ.t
  | QProjectItems _ _ _ => Items.t
  end.

(** The mutations with their [input]. *)
Inductive Mutation : Type :=
| MCreateProjectV2 (ownerId : ID) (title shortDescription : string)
| MAddProjectV2ItemById (projectId contentId : ID)
| MUpdateProjectV2ItemFieldValue (projectId itemId fieldId : ID) (value : string).

Definition MDecoded (m : Mutation) : Type :=
  match m with
  | MCreateProjectV2 _ _ _ => ProjectNode.t
  | MAddProjectV2ItemById _ _ => AddedItem.t
  | MUpdateProjectV2ItemFieldValue _ _ _ _ => IDNode.t
  end.

(** The zero value of each destination struct. *)
Definition zeroQ (q : QueryShape) : Decoded q :=
  match q with
  | QOrganizationID _ => OrgQ.mk None
  | QUserID _ => UserQ.mk None
  | QOwnerID _ => OwnerQ.mk None None
  | QOrganizationProjects _ _ _ => ProjectsV2.mk None PageInfo.zero
  | QUserProjects _ _ _ => ProjectsV2.mk None PageInfo.zero
  | QProject _ _ => ProjectQ.mk None None
  | QProjectItems _ _ _ => Items.mk None PageInfo.zero
  end.

Definition zeroM (m : Mutation) : MDecoded m :=
  match m with
  | MCreateProjectV2 _ _ _ => ProjectNode.zero
  | MAddProjectV2ItemById _ _ => AddedItem.mk None None
  | MUpdateProjectV2ItemFieldValue _ _ _ _ => IDNode.mk None
  end.

(** What an operation does to the outside world, in order. *)
Inductive Event : Type :=
| EvGetenv (key : string)
| EvNewClient (token : string)
| EvQuery (q : QueryShape)
| EvMutate (m : Mutation).

Definition isNetworkCall (ev : Event) : bool :=
  match ev with
  | EvQuery _ | EvMutate _ => true
  | _ => false
  end.

Definition isSome {A : Type} (o : option A) : bool :=
  match o with Some _ => true | None => false end.

(** ** The transport client and the effects of an operation *)

Section Operations.

(** State of the remote service, and of whatever else a client keeps
    between calls. *)
Variable R : Type.

(** [client.Query(ctx, &q, vars)] and [client.Mutate(ctx, &m, input, nil)]:
    a call fills the destination struct and returns an error or nil; the
    two are independent, as in Go. *)
Record Client : Type := mkClient {
  Query : forall q : QueryShape, R -> (Decoded q * option error) * R;
  Mutate : forall m : Mutation, R -> (MDecoded m * option error) * R
}.

(** The process environment and the [ghv4.NewClient] factory. *)
Record Env : Type := mkEnv {
  os_Getenv : string -> string;
  ghv4_NewClient : string -> Client
}.

(** The remote state and the log of what has been done so far. *)
Definition World : Type := (R * list Event)%type.

Definition M (A : Type) : Type := World -> A * World.

Definition ret {A : Type} (a : A) : M A := fun w => (a, w).

Definition bind {A B : Type} (c : M A) (k : A -> M B) : M B :=
  fun w => let (a, w') := c w in k a w'.

Local Notation "x <- c ;; k" := (bind c (fun x => k))
  (at level 61, c at next level, right associativity).
Local Notation "' pat <- c ;; k" := (bind c (fun x => match x with pat => k end))
  (at level 61, pat pattern, c at next level, right associativity).

Definition query (c : Client) (q : QueryShape) : M (Decoded q * option error) :=
  fun w => let (res, r) := Query c q (fst w) in
           (res, (r, (snd w ++ [EvQuery q])%list)).

Definition mutate (c : Client) (m : Mutation) : M (MDecoded m * option error) :=
  fun w => let (res, r) := Mutate c m (fst w) in
           (res, (r, (snd w ++ [EvMutate m])%list)).

Definition getenv (env : Env) (key : string) : M string :=
  fun w => (os_Getenv env key, (fst w, (snd w ++ [EvGetenv key])%list)).

Definition newClient (env : Env) (token : string) : M Client :=
  fun w => (ghv4_NewClient env token, (fst w, (snd w ++ [EvNewClient token])%list)).

(** ** Owner resolver (owner_resolution.go) *)

Definition resolveOwnerID (client : Client) (owner : string)
  : M (ID * option error) :=
  '(orgQ, orgErr) <- query client (QOrganizationID owner) ;;
  let orgNotFound := isSome orgErr && isGraphQLNotFound orgErr in
  let lookupUser : M (ID * option error) :=
    match OrgQ.Organization orgQ with
    | Some org => ret (IDNode.ID org, None)
    | None =>
        '(userQ, userErr) <- query client (QUserID owner) ;;
        let userNotFound := isSome userErr && isGraphQLNotFound userErr in
        let pickUser : M (ID * option error) :=
          match UserQ.User userQ with
          | Some user => ret (IDNode.ID user, None)
          | None =>
              if orgNotFound && userNotFound
              then ret (Some "", Some (errors_New "owner not found"))
              else ret (Some "", Some (errors_New "owner not found"))
          end in
        match userErr with
        | Some e =>
            if negb userNotFound
            then ret (Some "", Some (fmt_Errorf_w "user lookup failed" e))
            else pickUser
        | None => pickUser
        end
    end in
  match orgErr with
  | Some e =>
      if negb orgNotFound
      then ret (Some "", Some (fmt_Errorf_w "organization lookup failed" e))
      else lookupUser
  | None => lookupUser
  end.

(** ** Projects V2 operations (projects.go) *)

(** The block every operation runs when [client == nil]. *)
Definition defaultClient (env : Env) (client : option Client)
  : M (Client + error) :=
  match client with
  | Some c => ret (inl c)
  | None =>
      token <- getenv env "GITHUB_PERSONAL_ACCESS_TOKEN" ;;
      if token =? ""
      then ret (inr (errors_New "GITHUB_PERSONAL_ACCESS_TOKEN not set"))
      else c <- newClient env token ;; ret (inl c)
  end.

(** [return &x, nil] where building [x] may panic. *)
Definition succeed {A : Type} (x : Outcome A) : Outcome (option A * option error) :=
  match x with
  | Returned a => Returned (Some a, None)
  | Panicked => Panicked
  end.

(** [Project{ID: fmt.Sprint(n.ID), Number: int(n.Number),
    Title: string(n.Title), URL: n.URL.String()}]: panics when the node
    holds no URL. *)
Definition projectOfNode (n : ProjectNode.t) : Outcome Project.t :=
  match URI_String (ProjectNode.URL n) with
  | Returned url =>
      Returned {| Project.ID := fmt_Sprint (ProjectNode.ID n);
                  Project.Number := ProjectNode.Number n;
                  Project.Title := ProjectNode.Title n;
                  Project.URL := url |}
  | Panicked => Panicked
  end.

(** The page both list operations build from the decoded connection, node
    by node; the loop ends in a panic at the first node without a URL. *)
Definition projectsPage (pv : ProjectsV2.t)
  : Outcome ListOrganizationProjectsOutput.t :=
  let out :=
    {| ListOrganizationProjectsOutput.Projects := Some [];
       ListOrganizationProjectsOutput.EndCursor :=
         PageInfo.EndCursor (ProjectsV2.PageInfo pv);
       ListOrganizationProjectsOutput.HasNextPage :=
         PageInfo.HasNextPage (ProjectsV2.PageInfo pv) |} in
  fold_left
    (fun acc n =>
       match acc with
       | Returned out =>
           match projectOfNode n with
           | Returned p =>
               Returned
                 (ListOrganizationProjectsOutput.set_Projects out
                    (append (ListOrganizationProjectsOutput.Projects out) p))
           | Panicked => Panicked
           end
       | Panicked => Panicked
       end)
    (elems (ProjectsV2.Nodes pv)) (Returned out).

Definition ListOrganizationProjects (env : Env)
    (in_ : ListOrganizationProjectsInput.t) (client : option Client)
  : M (Outcome (option ListOrganizationProjectsOutput.t * option error)) :=
  if ListOrganizationProjectsInput.Organization in_ =? ""
  then ret (Returned (None, Some (errors_New "organization is required")))
  else
    c <- defaultClient env client ;;
    match c with
    | inr e => ret (Returned (None, Some e))
    | inl client =>
        '(q, err) <- query client
           (QOrganizationProjects
              (ListOrganizationProjectsInput.Organization in_)
              (Int (ListOrganizationProjectsInput.First in_))
              (ListOrganizationProjectsInput.After in_)) ;;
        match err with
        | Some e => ret (Returned (None, Some (fmt_Errorf_w "github graphql error" e)))
        | None => ret (succeed (projectsPage q))
        end
    end.

Definition ListUserProjects (env : Env)
    (in_ : ListUserProjectsInput.t) (client : option Client)
  : M (Outcome (option ListOrganizationProjectsOutput.t * option error)) :=
  if ListUserProjectsInput.User in_ =? ""
  then ret (Returned (None, Some (errors_New "user is required")))
  else
    c <- defaultClient env client ;;
    match c with
    | inr e => ret (Returned (None, Some e))
    | inl client =>
        '(q, err) <- query client
           (QUserProjects
              (ListUserProjectsInput.User in_)
              (Int (ListUserProjectsInput.First in_))
              (ListUserProjectsInput.After in_)) ;;
        match err with
        | Some e => ret (Returned (None, Some (fmt_Errorf_w "github graphql error" e)))
        | None => ret (succeed (projectsPage q))
        end
    end.

(** [o != nil && o.ProjectV2 != nil], and then [o.ProjectV2]. *)
Definition projectUnder (o : option OwnerProject.t) : option ProjectNode.t :=
  match o with
  | Some o => OwnerProject.ProjectV2 o
  | None => None
  end.

Definition GetProject (env : Env) (in_ : GetProjectInput.t)
    (client : option Client) : M (Outcome (option Project.t * option error)) :=
  if (GetProjectInput.Owner in_ =? "") || (GetProjectInput.Number in_ =? 0)%Z
  then ret (Returned (None, Some (errors_New "owner and number are required")))
  else
    c <- defaultClient env client ;;
    match c with
    | inr e => ret (Returned (None, Some e))
    | inl client =>
        '(q, err) <- query client
           (QProject (GetProjectInput.Owner in_)
                     (Int (GetProjectInput.Number in_))) ;;
        match err with
        | Some e => ret (Returned (None, Some (fmt_Errorf_w "github graphql error" e)))
        | None =>
            match projectUnder (ProjectQ.Organization q) with
            | Some p => ret (succeed (projectOfNode p))
            | None =>
                match projectUnder (ProjectQ.User q) with
                | Some p => ret (succeed (projectOfNode p))
                | None => ret (Returned (None, Some (errors_New "project not found")))
                end
            end
        end
    end.

(** The item [GetProjectItems] builds for a node; [State] is not
    assigned.  The content is held by value, so a node whose content is
    null or has no URL is a panic in [n.Content.URL.String()]. *)
Definition itemOfNode (n : ItemNode.t) : Outcome ProjectItem.t :=
  match URI_String (Content.URL (ItemNode.Content n)) with
  | Returned url =>
      Returned {| ProjectItem.ID := fmt_Sprint (ItemNode.ID n);
                  ProjectItem.ContentID :=
                    fmt_Sprint (Content.ID (ItemNode.Content n));
                  ProjectItem.ContentType := Content.Typename (ItemNode.Content n);
                  ProjectItem.Title := Content.Title (ItemNode.Content n);
                  ProjectItem.State := "";
                  ProjectItem.URL := url |}
  | Panicked => Panicked
  end.

Definition itemsPage (its : Items.t) : Outcome GetProjectItemsOutput.t :=
  let out :=
    {| GetProjectItemsOutput.Items := Some [];
       GetProjectItemsOutput.EndCursor := PageInfo.EndCursor (Items.PageInfo its);
       GetProjectItemsOutput.HasNextPage :=
         PageInfo.HasNextPage (Items.PageInfo its) |} in
  fold_left
    (fun acc n =>
       match acc with
       | Returned out =>
           match itemOfNode n with
           | Returned item =>
               Returned
                 (GetProjectItemsOutput.set_Items out
                    (append (GetProjectItemsOutput.Items out) item))
           | Panicked => Panicked
           end
       | Panicked => Panicked
       end)
    (elems (Items.Nodes its)) (Returned out).

Definition GetProjectItems (env : Env) (in_ : GetProjectItemsInput.t)
    (client : option Client)
  : M (Outcome (option GetProjectItemsOutput.t * option error)) :=
  if GetProjectItemsInput.ProjectID in_ =? ""
  then ret (Returned (None, Some (errors_New "projectID is required")))
  else
    c <- defaultClient env client ;;
    match c with
    | inr e => ret (Returned (None, Some e))
    | inl client =>
        '(q, err) <- query client
           (QProjectItems (Some (GetProjectItemsInput.ProjectID in_))
              (Int (GetProjectItemsInput.First in_))
              (GetProjectItemsInput.After in_)) ;;
        match err with
        | Some e => ret (Returned (None, Some (fmt_Errorf_w "github graphql error" e)))
        | None => ret (succeed (itemsPage q))
        end
    end.

(** The owner identifier [CreateProject] picks from its combined lookup. *)
Definition ownerIDOf (ownerQ : OwnerQ.t) : option ID :=
  match OwnerQ.Organization ownerQ with
  | Some org => Some (IDNode.ID org)
  | None =>
      match OwnerQ.User ownerQ with
      | Some user => Some (IDNode.ID user)
      | None => None
      end
  end.

Definition CreateProject (env : Env) (in_ : CreateProjectInput.t)
    (client : option Client) : M (Outcome (option Project.t * option error)) :=
  if (CreateProjectInput.Owner in_ =? "") || (CreateProjectInput.Title in_ =? "")
  then ret (Returned (None, Some (errors_New "owner and title are required")))
  else
    c <- defaultClient env client ;;
    match c with
    | inr e => ret (Returned (None, Some e))
    | inl client =>
        '(ownerQ, err) <- query client (QOwnerID (CreateProjectInput.Owner in_)) ;;
        match err with
        | Some e => ret (Returned (None, Some (fmt_Errorf_w "owner lookup failed" e)))
        | None =>
            match ownerIDOf ownerQ with
            | None => ret (Returned (None, Some (errors_New "owner not found")))
            | Some ownerID =>
                let input :=
                  MCreateProjectV2 ownerID (CreateProjectInput.Title in_)
                    (if negb (CreateProjectInput.Description in_ =? "")
                     then CreateProjectInput.Description in_ else "") in
                '(m, err) <- mutate client input ;;
                match err with
                | Some e => ret (Returned (None, Some (fmt_Errorf_w "github graphql error" e)))
                | None => ret (succeed (projectOfNode m))
                end
            end
        end
    end.

(** The item [AddProjectItem] builds from the mutation response: the
    content is read only when its pointer is not nil, and then a content
    without a URL is a panic in [Content.URL.String()]. *)
Definition itemOfAdded (a : AddedItem.t) : Outcome ProjectItem.t :=
  match AddedItem.Content a with
  | Some content =>
      match URI_String (Content.URL content) with
      | Returned url =>
          Returned {| ProjectItem.ID := fmt_Sprint (AddedItem.ID a);
                      ProjectItem.ContentID := fmt_Sprint (Content.ID content);
                      ProjectItem.ContentType := Content.Typename content;
                      ProjectItem.Title := Content.Title content;
                      ProjectItem.State := Content.State content;
                      ProjectItem.URL := url |}
      | Panicked => Panicked
      end
  | None =>
      Returned {| ProjectItem.ID := fmt_Sprint (AddedItem.ID a);
                  ProjectItem.ContentID := ""; ProjectItem.ContentType := "";
                  ProjectItem.Title := ""; ProjectItem.State := "";
                  ProjectItem.URL := "" |}
  end.

Definition AddProjectItem (env : Env) (in_ : AddProjectItemInput.t)
    (client : option Client) : M (Outcome (option AddProjectItemOutput.t * option error)) :=
  if (AddProjectItemInput.ProjectID in_ =? "") ||
     (AddProjectItemInput.ContentID in_ =? "")
  then ret (Returned (None, Some (errors_New "projectID and contentID are required")))
  else
    c <- defaultClient env client ;;
    match c with
    | inr e => ret (Returned (None, Some e))
    | inl client =>
        let input :=
          MAddProjectV2ItemById (Some (AddProjectItemInput.ProjectID in_))
                                (Some (AddProjectItemInput.ContentID in_)) in
        '(m, err) <- mutate client input ;;
        match err with
        | Some e => ret (Returned (None, Some (fmt_Errorf_w "github graphql error" e)))
        | None =>
            match itemOfAdded m with
            | Returned item =>
                ret (Returned (Some (AddProjectItemOutput.mk item), None))
            | Panicked => ret Panicked
            end
        end
    end.

Definition UpdateProjectItemField (env : Env)
    (in_ : UpdateProjectItemFieldInput.t) (client : option Client)
  : M (Outcome (option UpdateProjectItemFieldOutput.t * option error)) :=
  if (UpdateProjectItemFieldInput.ItemID in_ =? "") ||
     (UpdateProjectItemFieldInput.FieldID in_ =? "") ||
     (UpdateProjectItemFieldInput.Value in_ =? "")
  then ret (Returned (None, Some (errors_New "itemID, fieldID, and value are required")))
  else
    c <- defaultClient env client ;;
    match c with
    | inr e => ret (Returned (None, Some e))
    | inl client =>
        let input :=
          MUpdateProjectV2ItemFieldValue
            (Some (UpdateProjectItemFieldInput.ProjectID in_))
            (Some (UpdateProjectItemFieldInput.ItemID in_))
            (Some (UpdateProjectItemFieldInput.FieldID in_))
            (UpdateProjectItemFieldInput.Value in_) in
        '(m, err) <- mutate client input ;;
        match err with
        | Some e => ret (Returned (None, Some (fmt_Errorf_w "github graphql error" e)))
        | None =>
            let item :=
              {| ProjectItem.ID := fmt_Sprint (IDNode.ID m);
                 ProjectItem.ContentID := ""; ProjectItem.ContentType := "";
                 ProjectItem.Title := ""; ProjectItem.State := "";
                 ProjectItem.URL := "" |} in
            ret (Returned (Some (UpdateProjectItemFieldOutput.mk item), None))
        end
    end.

End Operations.

Arguments Query {R} _ _ _.
Arguments Mutate {R} _ _ _.
Arguments mkClient {R} _ _.
Arguments mkEnv {R} _ _.
Arguments os_Getenv {R} _ _.
Arguments ghv4_NewClient {R} _ _.
Arguments ret {R A} _ _.
Arguments bind {R A B} _ _ _.
Arguments query {R} _ _ _.
Arguments mutate {R} _ _ _.
Arguments getenv {R} _ _ _.
Arguments newClient {R} _ _ _.
Arguments resolveOwnerID {R} _ _ _.
Arguments defaultClient {R} _ _ _.
Arguments ListOrganizationProjects {R} _ _ _ _.
Arguments ListUserProjects {R} _ _ _ _.
Arguments GetProject {R} _ _ _ _.
Arguments GetProjectItems {R} _ _ _ _.
Arguments CreateProject {R} _ _ _ _.
Arguments AddProjectItem {R} _ _ _ _.
Arguments UpdateProjectItemField {R} _ _ _ _.

(** ** Properties stated over a run *)

(** The operation obtained a client (the caller's, or the default one) and
    its query [q] was answered with [d] and a nil error. *)
Definition answered {R : Type} (env : Env R) (client : option (Client R))
    (w : World R) (q : QueryShape) (d : Decoded q) : Prop :=
  exists c w1 r,
    defaultClient env client w = (inl c, w1) /\
    Query c q (fst w1) = ((d, None), r).

(** A Go result pair holds either a value or an error, never both and never
    neither. *)
Definition exactlyOne {A : Type} (res : option A * option error) : Prop :=
  (fst res = None /\ snd res <> None) \/ (fst res <> None /\ snd res = None).

(** The resolver continues to the user lookup whenever the organization
    lookup ended in a NotFound error, with nothing assumed about what either
    lookup left in its destination struct: the user lookup is issued, a
    user lookup that succeeds with a user object gives that user's
    identifier, and a user lookup that also ends in a NotFound error gives
    "owner not found". *)
Definition continuesPastNotFound {R : Type} (client : Client R)
    (owner : string) (w : World R) : Prop :=
  forall orgQ e r1,
    Query client (QOrganizationID owner) (fst w) = ((orgQ, Some e), r1) ->
    isGraphQLNotFound (Some e) = true ->
    snd (snd (resolveOwnerID client owner w)) =
      (snd w ++ [EvQuery (QOrganizationID owner); EvQuery (QUserID owner)])%list /\
    (forall user r2,
        Query client (QUserID owner) r1 = ((UserQ.mk (Some user), None), r2) ->
        fst (resolveOwnerID client owner w) = (IDNode.ID user, None)) /\
    (forall userQ e' r2,
        Query client (QUserID owner) r1 = ((userQ, Some e'), r2) ->
        isGraphQLNotFound (Some e') = true ->
        fst (resolveOwnerID client owner w) =
          (Some "", Some (errors_New "owner not found"))).

(** ** Clients and remotes of the test suite *)

(** A client that keeps no state and answers each request by a fixed
    table. *)
Definition statelessClient
    (fq : forall q : QueryShape, Decoded q * option error)
    (fm : forall m : Mutation, MDecoded m * option error) : Client unit :=
  mkClient (fun q r => (fq q, r)) (fun m r => (fm m, r)).

(** [fakeGraphQLClient] of owner_resolution_test.go. *)
Definition fakeGraphQLClient (orgID userID : ID) (orgErr userErr : option error)
  : Client unit :=
  statelessClient
    (fun q =>
       match q return Decoded q * option error with
       | QOrganizationID _ =>
           match orgErr with
           | Some e => (OrgQ.mk None, Some e)
           | None =>
               match orgID with
               | Some "" => (OrgQ.mk None, None)
               | _ => (OrgQ.mk (Some (IDNode.mk orgID)), None)
               end
           end
       | QUserID _ =>
           match userErr with
           | Some e => (UserQ.mk None, Some e)
           | None =>
               match userID with
               | Some "" => (UserQ.mk None, None)
               | _ => (UserQ.mk (Some (IDNode.mk userID)), None)
               end
           end
       | q' => (zeroQ q', Some (errors_New "unexpected query type"))
       end)
    (fun m => (zeroM m, Some (errors_New "not implemented"))).

(** An environment without a token. *)
Definition noTokenEnv : Env unit :=
  mkEnv (fun _ => "")
        (fun _ => fakeGraphQLClient (Some "") (Some "") None None).

(** An environment holding a token; the default client reaches a remote
    where "octo-org" is an organization owning project 7. *)
Definition octoRemote : Client unit :=
  statelessClient
    (fun q =>
       match q return Decoded q * option error with
       | QProject "octo-org" 7 =>
           (ProjectQ.mk
              (Some (OwnerProject.mk
                 (Some (ProjectNode.mk (Some "PVT_7") 7 "Roadmap"
                          (mkURI (Some "https://github.com/orgs/octo-org/projects/7"))))))
              None, None)
       | q' => (zeroQ q', None)
       end)
    (fun m => (zeroM m, None)).

Definition tokenEnv : Env unit :=
  mkEnv (fun key => if key =? "GITHUB_PERSONAL_ACCESS_TOKEN" then "ghp_token" else "")
        (fun _ => octoRemote).

(** The remote of TestListOrganizationProjects/success. *)
Definition testOrgProjects : ProjectsV2.t :=
  ProjectsV2.mk
    (Some [ ProjectNode.mk (Some "1") 1 "Proj1" (mkURI (Some "http://example.com/p1"));
            ProjectNode.mk (Some "2") 2 "Proj2" (mkURI (Some "http://example.com/p2")) ])
    (PageInfo.mk "abc" false).

(** The remote of TestListUserProjects/success. *)
Definition testUserProjects : ProjectsV2.t :=
  ProjectsV2.mk
    (Some [ ProjectNode.mk (Some "1") 1 "Proj1" (mkURI (Some "http://example.com/p1")) ])
    (PageInfo.mk "abc" false).

(** A project with one open issue: the item of TestGetProjectItems/success
    with the [state] the query also selects. *)
Definition testItems : Items.t :=
  Items.mk
    (Some [ ItemNode.mk (Some "item1")
              (Content.mk "Issue" (Some "c1") "Issue1" "OPEN"
                 (mkURI (Some "http://example.com/i1"))) ])
    (PageInfo.mk "abc" false).

(** The mutation response of TestAddProjectItem/success, with the same
    content. *)
Definition testAdded : AddedItem.t :=
  AddedItem.mk (Some "item2")
    (Some (Content.mk "Issue" (Some "c1") "Issue1" "OPEN"
             (mkURI (Some "http://example.com/i1")))).

Definition testRemote : Client unit :=
  statelessClient
    (fun q =>
       match q return Decoded q * option error with
       | QOrganizationProjects _ _ _ => (testOrgProjects, None)
       | QUserProjects _ _ _ => (testUserProjects, None)
       | QProjectItems _ _ _ => (testItems, None)
       | QProject _ _ =>
           (ProjectQ.mk
              (Some (OwnerProject.mk
                 (Some (ProjectNode.mk (Some "proj123") 123 "Test Project"
                          (mkURI (Some "http://example.com/project"))))))
              None, None)
       | q' => (zeroQ q', None)
       end)
    (fun m =>
       match m return MDecoded m * option error with
       | MAddProjectV2ItemById _ _ => (testAdded, None)
       | MUpdateProjectV2ItemFieldValue _ _ _ _ => (IDNode.mk (Some "item2"), None)
       | MCreateProjectV2 _ _ _ =>
           (ProjectNode.mk (Some "proj456") 456 "Test Project"
              (mkURI (Some "http://example.com/project")), None)
       end).

(** The remote of TestOwnerResolutionInCreateProject/owner_is_user.  The
    handler answers by what the request body mentions: a body naming the
    organization root gets [{"data":{"organization":null}}], any other body
    naming the user root gets user "user123".  The combined lookup of
    [CreateProject] names the organization root. *)
Definition ownerIsUserRemote : Client unit :=
  statelessClient
    (fun q =>
       match q return Decoded q * option error with
       | QOrganizationID _ => (OrgQ.mk None, None)
       | QOwnerID _ => (OwnerQ.mk None None, None)
       | QUserID _ => (UserQ.mk (Some (IDNode.mk (Some "user123"))), None)
       | q' => (zeroQ q', None)
       end)
    (fun m =>
       match m return MDecoded m * option error with
       | MCreateProjectV2 _ _ _ =>
           (ProjectNode.mk (Some "projUser") 2 "Project for User"
              (mkURI (Some "http://example.com/userproject")), None)
       | m' => (zeroM m', None)
       end).

(** A remote that reports an unknown organization as an error, as the
    NotFound phrases expect: the login is a user, every request naming the
    organization root comes back with the error (and with the data the
    other root resolved). *)
Definition orgUnresolved : error :=
  errors_New "could not resolve to an Organization with the login of 'user-login'".

Definition userOnlyRemote : Client unit :=
  statelessClient
    (fun q =>
       match q return Decoded q * option error with
       | QOrganizationID _ => (OrgQ.mk None, Some orgUnresolved)
       | QOwnerID _ =>
           (OwnerQ.mk None (Some (IDNode.mk (Some "user123"))), Some orgUnresolved)
       | QUserID _ => (UserQ.mk (Some (IDNode.mk (Some "user123"))), None)
       | q' => (zeroQ q', None)
       end)
    (fun m =>
       match m return MDecoded m * option error with
       | MCreateProjectV2 _ _ _ =>
           (ProjectNode.mk (Some "projUser") 2 "Project for User"
              (mkURI (Some "http://example.com/userproject")), None)
       | m' => (zeroM m', None)
       end).

(** A client whose organization lookup decodes an organization and also
    returns an error with a NotFound phrase (a response carrying both data
    and errors). *)
Definition dataAndErrorClient : Client unit :=
  statelessClient
    (fun q =>
       match q return Decoded q * option error with
       | QOrganizationID _ =>
           (OrgQ.mk (Some (IDNode.mk (Some "ORGID"))),
            Some (errors_New "could not resolve to a User with the login of 'testowner'"))
       | QUserID _ => (UserQ.mk (Some (IDNode.mk (Some "USERID"))), None)
       | q' => (zeroQ q', None)
       end)
    (fun m => (zeroM m, None)).

(** The start of a run: nothing logged yet. *)
Definition start : World unit := (tt, []).

(** ** The operations as one family

    The seven exported operations, indexed by the call they serve, so that a
    statement about "every operation" is one statement. *)

Inductive Call : Type :=
| CallListOrganizationProjects (in_ : ListOrganizationProjectsInput.t)
| CallListUserProjects (in_ : ListUserProjectsInput.t)
| CallGetProject (in_ : GetProjectInput.t)
| CallGetProjectItems (in_ : GetProjectItemsInput.t)
| CallCreateProject (in_ : CreateProjectInput.t)
| CallAddProjectItem (in_ : AddProjectItemInput.t)
| CallUpdateProjectItemField (in_ : UpdateProjectItemFieldInput.t).

Definition Out (c : Call) : Type :=
  match c with
  | CallListOrganizationProjects _ => ListOrganizationProjectsOutput.t
  | CallListUserProjects _ => ListOrganizationProjectsOutput.t
  | CallGetProject _ => Project.t
  | CallGetProjectItems _ => GetProjectItemsOutput.t
  | CallCreateProject _ => Project.t
  | CallAddProjectItem _ => AddProjectItemOutput.t
  | CallUpdateProjectItemField _ => UpdateProjectItemFieldOutput.t
  end.

Definition run {R : Type} (env : Env R) (c : Call) (client : option (Client R))
  : M R (Outcome (option (Out c) * option error)) :=
  match c with
  | CallListOrganizationProjects in_ => ListOrganizationProjects env in_ client
  | CallListUserProjects in_ => ListUserProjects env in_ client
  | CallGetProject in_ => GetProject env in_ client
  | CallGetProjectItems in_ => GetProjectItems env in_ client
  | CallCreateProject in_ => CreateProject env in_ client
  | CallAddProjectItem in_ => AddProjectItem env in_ client
  | CallUpdateProjectItemField in_ => UpdateProjectItemField env in_ client
  end.

(** The test each operation opens with. *)
Definition rejected (c : Call) : bool :=
  match c with
  | CallListOrganizationProjects in_ =>
      ListOrganizationProjectsInput.Organization in_ =? ""
  | CallListUserProjects in_ => ListUserProjectsInput.User in_ =? ""
  | CallGetProject in_ =>
      (GetProjectInput.Owner in_ =? "") || (GetProjectInput.Number in_ =? 0)%Z
  | CallGetProjectItems in_ => GetProjectItemsInput.ProjectID in_ =? ""
  | CallCreateProject in_ =>
      (CreateProjectInput.Owner in_ =? "") || (CreateProjectInput.Title in_ =? "")
  | CallAddProjectItem in_ =>
      (AddProjectItemInput.ProjectID in_ =? "") ||
      (AddProjectItemInput.ContentID in_ =? "")
  | CallUpdateProjectItemField in_ =>
      (UpdateProjectItemFieldInput.ItemID in_ =? "") ||
      (UpdateProjectItemFieldInput.FieldID in_ =? "") ||
      (UpdateProjectItemFieldInput.Value in_ =? "")
  end.

(** The first network call of each operation, with the variables it is sent
    with. *)
Definition request (c : Call) : Event :=
  match c with
  | CallListOrganizationProjects in_ =>
      EvQuery (QOrganizationProjects
                 (ListOrganizationProjectsInput.Organization in_)
                 (Int (ListOrganizationProjectsInput.First in_))
                 (ListOrganizationProjectsInput.After in_))
  | CallListUserProjects in_ =>
      EvQuery (QUserProjects
                 (ListUserProjectsInput.User in_)
                 (Int (ListUserProjectsInput.First in_))
                 (ListUserProjectsInput.After in_))
  | CallGetProject in_ =>
      EvQuery (QProject (GetProjectInput.Owner in_)
                        (Int (GetProjectInput.Number in_)))
  | CallGetProjectItems in_ =>
      EvQuery (QProjectItems (Some (GetProjectItemsInput.ProjectID in_))
                 (Int (GetProjectItemsInput.First in_))
                 (GetProjectItemsInput.After in_))
  | CallCreateProject in_ => EvQuery (QOwnerID (CreateProjectInput.Owner in_))
  | CallAddProjectItem in_ =>
      EvMutate (MAddProjectV2ItemById
                  (Some (AddProjectItemInput.ProjectID in_))
                  (Some (AddProjectItemInput.ContentID in_)))
  | CallUpdateProjectItemField in_ =>
      EvMutate (MUpdateProjectV2ItemFieldValue
                  (Some (UpdateProjectItemFieldInput.ProjectID in_))
                  (Some (UpdateProjectItemFieldInput.ItemID in_))
                  (Some (UpdateProjectItemFieldInput.FieldID in_))
                  (UpdateProjectItemFieldInput.Value in_))
  end.

(** The context each operation wraps the error of its first network call
    in. *)
Definition context (c : Call) : string :=
  match c with
  | CallCreateProject _ => "owner lookup failed"
  | _ => "github graphql error"
  end.

(** The error a client returns for a network call, if any. *)
Definition failure {R : Type} (client : Client R) (ev : Event) (r : R)
  : option error :=
  match ev with
  | EvQuery q => snd (fst (Query client q r))
  | EvMutate m => snd (fst (Mutate client m r))
  | _ => None
  end.

(** The environment variable the default client is built from, and the
    error reported when it is empty. *)
Definition tokenKey : string := "GITHUB_PERSONAL_ACCESS_TOKEN".

Definition tokenNotSet : error := errors_New "GITHUB_PERSONAL_ACCESS_TOKEN not set".

(** [err != nil && !isGraphQLNotFound(err)]: the test under which the
    resolver gives up on a lookup. *)
Definition isFatal (err : option error) : bool :=
  isSome err && negb (isSome err && isGraphQLNotFound err).

(** The contexts the package wraps an error in with [fmt.Errorf("...: %w")]. *)
Definition wrapContexts : list string :=
  [ "organization lookup failed"; "user lookup failed";
    "owner lookup failed"; "github graphql error" ].

(** A remote that never answers: every call fails with the same error. *)
Definition downClient (e : error) : Client unit :=
  statelessClient (fun q => (zeroQ q, Some e)) (fun m => (zeroM m, Some e)).

(** A remote where the login is both an organization and a user, with the
    identifiers of the test "owner ambiguous (org and user both exist)". *)
Definition ambiguousRemote : Client unit :=
  statelessClient
    (fun q =>
       match q return Decoded q * option error with
       | QOwnerID _ =>
           (OwnerQ.mk (Some (IDNode.mk (Some "orgAmbig")))
                      (Some (IDNode.mk (Some "userAmbig"))), None)
       | q' => (zeroQ q', None)
       end)
    (fun m =>
       match m return MDecoded m * option error with
       | MCreateProjectV2 _ _ _ =>
           (ProjectNode.mk (Some "projAmbig") 3 "Ambiguous Project"
              (mkURI (Some "http://example.com/ambigproject")), None)
       | m' => (zeroM m', None)
       end).

(** ** JSON shape of the outputs

    What [json.Marshal] makes of the output structs, as a tree: the member
    names and the [omitempty] options are those of the struct tags; a nil
    slice or pointer is [null]. *)

Module JSON.

#[warnings="-register-all"]
Inductive value : Type :=
| Null
| Bool (b : bool)
| Number (n : Z)
| Str (s : string)
| Array (elements : list value)
| Object (members : list (string * value)).

(** The member of an object with the given name. *)
Fixpoint lookup (name : string) (members : list (string * value)) : option value :=
  match members with
  | [] => None
  | (k, v) :: rest => if k =? name then Some v else lookup name rest
  end.

Definition member (name : string) (v : value) : option value :=
  match v with
  | Object members => lookup name members
  | _ => None
  end.

(** A string member tagged [omitempty]. *)
Definition omitempty (name : string) (s : string) : list (string * value) :=
  if s =? "" then [] else [(name, Str s)].

Definition ofProject (p : Project.t) : value :=
  Object [ ("id", Str (Project.ID p));
           ("number", Number (Project.Number p));
           ("title", Str (Project.Title p));
           ("url", Str (Project.URL p)) ].

Definition ofProjectItem (i : ProjectItem.t) : value :=
  Object [ ("id", Str (ProjectItem.ID i));
           ("content_id", Str (ProjectItem.ContentID i));
           ("content_type", Str (ProjectItem.ContentType i));
           ("title", Str (ProjectItem.Title i));
           ("state", Str (ProjectItem.State i));
           ("url", Str (ProjectItem.URL i)) ].

Definition ofSlice {A : Type} (f : A -> value) (s : slice A) : value :=
  match s with
  | None => Null
  | Some l => Array (map f l)
  end.

Definition ofListOrganizationProjectsOutput
    (o : ListOrganizationProjectsOutput.t) : value :=
  Object ([ ("projects",
             ofSlice ofProject (ListOrganizationProjectsOutput.Projects o)) ]
          ++ omitempty "end_cursor" (ListOrganizationProjectsOutput.EndCursor o)
          ++ [ ("has_next_page",
                Bool (ListOrganizationProjectsOutput.HasNextPage o)) ])%list.

Definition ofGetProjectItemsOutput (o : GetProjectItemsOutput.t) : value :=
  Object ([ ("items", ofSlice ofProjectItem (GetProjectItemsOutput.Items o)) ]
          ++ omitempty "end_cursor" (GetProjectItemsOutput.EndCursor o)
          ++ [ ("has_next_page", Bool (GetProjectItemsOutput.HasNextPage o)) ])%list.

Definition ofAddProjectItemOutput (o : AddProjectItemOutput.t) : value :=
  Object [ ("item", ofProjectItem (AddProjectItemOutput.Item o)) ].

Definition ofUpdateProjectItemFieldOutput
    (o : UpdateProjectItemFieldOutput.t) : value :=
  Object [ ("item", ofProjectItem (UpdateProjectItemFieldOutput.Item o)) ].

(** A pointer to a struct: [null] when nil. *)
Definition ofPointer {A : Type} (f : A -> value) (p : option A) : value :=
  match p with
  | None => Null
  | Some a => f a
  end.

End JSON.

(** [json.Marshal(out)] for the output of each operation, as a tree. *)
Definition marshal (c : Call) : option (Out c) -> JSON.value :=
  match c return option (Out c) -> JSON.value with
  | CallListOrganizationProjects _ =>
      JSON.ofPointer JSON.ofListOrganizationProjectsOutput
  | CallListUserProjects _ =>
      JSON.ofPointer JSON.ofListOrganizationProjectsOutput
  | CallGetProject _ => JSON.ofPointer JSON.ofProject
  | CallGetProjectItems _ => JSON.ofPointer JSON.ofGetProjectItemsOutput
  | CallCreateProject _ => JSON.ofPointer JSON.ofProject
  | CallAddProjectItem _ => JSON.ofPointer JSON.ofAddProjectItemOutput
  | CallUpdateProjectItemField _ =>
      JSON.ofPointer JSON.ofUpdateProjectItemFieldOutput
  end.

(** ** Tool factories (projects_tools.go) *)

(** What [mcp.NewTool] is given: the name, the description and the declared
    parameters. *)
Inductive Kind : Type := KString | KNumber.

Record ToolParam : Type :=
  mkParam { pname : string; kind : Kind; required : bool; pdescription : string }.

Record Tool : Type :=
  mkTool { tname : string; tdescription : string; tparams : list ToolParam }.

Inductive ToolId : Type :=
| ListOrganizationProjectsTool
| ListUserProjectsTool
| GetProjectTool
| GetProjectItemsTool
| CreateProjectTool
| AddProjectItemTool
| UpdateProjectItemFieldTool.

Definition tool (t : ToolId) : Tool :=
  match t with
  | ListOrganizationProjectsTool =>
      mkTool "list_organization_projects" "List Projects for an organization"
        [ mkParam "organization" KString true "The organization login";
          mkParam "first" KNumber false "Max number of projects to return";
          mkParam "after" KString false "Cursor for pagination" ]
  | ListUserProjectsTool =>
      mkTool "list_user_projects" "List Projects for a user"
        [ mkParam "user" KString true "The user login";
          mkParam "first" KNumber false "Max number of projects to return";
          mkParam "after" KString false "Cursor for pagination" ]
  | GetProjectTool =>
      mkTool "get_project" "Get a project by owner and number"
        [ mkParam "owner" KString true "The organization or user login";
          mkParam "number" KNumber true "Project number" ]
  | GetProjectItemsTool =>
      mkTool "get_project_items" "Get items for a project"
        [ mkParam "project_id" KString true "Project node ID";
          mkParam "first" KNumber false "Max number of items to return";
          mkParam "after" KString false "Cursor for pagination" ]
  | CreateProjectTool =>
      mkTool "create_project" "Create a new project"
        [ mkParam "owner" KString true "The organization or user login";
          mkParam "title" KString true "Project title";
          mkParam "description" KString false "Project description" ]
  | AddProjectItemTool =>
      mkTool "add_project_item" "Add an item to a project"
        [ mkParam "project_id" KString true "Project node ID";
          mkParam "content_id" KString true "Content node ID (issue, PR, etc)" ]
  | UpdateProjectItemFieldTool =>
      mkTool "update_project_item_field" "Update a field on a project item"
        [ mkParam "project_id" KString true "Project node ID";
          mkParam "item_id" KString true "Item node ID";
          mkParam "field_id" KString true "Field node ID";
          mkParam "value" KString true "New value for the field" ]
  end.

(** [mcp.NewToolResultText(string(b))] *)
Inductive CallToolResult : Type :=
| NewToolResultText (text : string).

Section Tools.

(** The remote state, the request type of the tool layer, Go's [float64]
    with its conversion to [int], the two instances of [requiredParam] the
    handlers use, the serialization of a JSON tree, and the client getter
    the factories are given. *)
Variable R : Type.
Variable Req : Type.
Variable float64 : Type.
Variable int_of_float64 : float64 -> Z.
Variable requiredParam_string : Req -> string -> string * option error.
Variable requiredParam_float64 : Req -> string -> float64 * option error.
Variable json_encode : JSON.value -> string.
Variable getClient : M R (option (Client R) * option error).
Variable env : Env R.

Local Notation "x <- c ;; k" := (bind c (fun x => k))
  (at level 61, c at next level, right associativity).
Local Notation "' pat <- c ;; k" := (bind c (fun x => match x with pat => k end))
  (at level 61, pat pattern, c at next level, right associativity).

(** The tail every handler shares: a panic of the operation goes through
    the handler; otherwise the handler returns the operation's error, or the
    marshalled output as text. *)
Definition respond (c : Call) (res : Outcome (option (Out c) * option error))
  : M R (Outcome (option CallToolResult * option error)) :=
  match res with
  | Panicked => ret Panicked
  | Returned res =>
      match snd res with
      | Some e => ret (Returned (None, Some e))
      | None =>
          ret (Returned
                 (Some (NewToolResultText (json_encode (marshal c (fst res)))),
                  None))
      end
  end.

Definition ListOrganizationProjectsTool_handler (req : Req)
  : M R (Outcome (option CallToolResult * option error)) :=
  '(client, err) <- getClient ;;
  match err with
  | Some e => ret (Returned (None, Some e))
  | None =>
      let (organization, err) := requiredParam_string req "organization" in
      match err with
      | Some e => ret (Returned (None, Some e))
      | None =>
          let (first, _) := requiredParam_float64 req "first" in
          let (after, _) := requiredParam_string req "after" in
          let input :=
            ListOrganizationProjectsInput.mk organization
              (int_of_float64 first) after in
          res <- ListOrganizationProjects env input client ;;
          respond (CallListOrganizationProjects input) res
      end
  end.

Definition ListUserProjectsTool_handler (req : Req)
  : M R (Outcome (option CallToolResult * option error)) :=
  '(client, err) <- getClient ;;
  match err with
  | Some e => ret (Returned (None, Some e))
  | None =>
      let (user, err) := requiredParam_string req "user" in
      match err with
      | Some e => ret (Returned (None, Some e))
      | None =>
          let (first, _) := requiredParam_float64 req "first" in
          let (after, _) := requiredParam_string req "after" in
          let input :=
            ListUserProjectsInput.mk user (int_of_float64 first) after in
          res <- ListUserProjects env input client ;;
          respond (CallListUserProjects input) res
      end
  end.

Definition GetProjectTool_handler (req : Req)
  : M R (Outcome (option CallToolResult * option error)) :=
  '(client, err) <- getClient ;;
  match err with
  | Some e => ret (Returned (None, Some e))
  | None =>
      let (owner, err) := requiredParam_string req "owner" in
      match err with
      | Some e => ret (Returned (None, Some e))
      | None =>
          let (number, err) := requiredParam_float64 req "number" in
          match err with
          | Some e => ret (Returned (None, Some e))
          | None =>
              let input := GetProjectInput.mk owner (int_of_float64 number) in
              res <- GetProject env input client ;;
              respond (CallGetProject input) res
          end
      end
  end.

Definition GetProjectItemsTool_handler (req : Req)
  : M R (Outcome (option CallToolResult * option error)) :=
  '(client, err) <- getClient ;;
  match err with
  | Some e => ret (Returned (None, Some e))
  | None =>
      let (projectID, err) := requiredParam_string req "project_id" in
      match err with
      | Some e => ret (Returned (None, Some e))
      | None =>
          let (first, _) := requiredParam_float64 req "first" in
          let (after, _) := requiredParam_string req "after" in
          let input :=
            GetProjectItemsInput.mk projectID (int_of_float64 first) after in
          res <- GetProjectItems env input client ;;
          respond (CallGetProjectItems input) res
      end
  end.

Definition CreateProjectTool_handler (req : Req)
  : M R (Outcome (option CallToolResult * option error)) :=
  '(client, err) <- getClient ;;
  match err with
  | Some e => ret (Returned (None, Some e))
  | None =>
      let (owner, err) := requiredParam_string req "owner" in
      match err with
      | Some e => ret (Returned (None, Some e))
      | None =>
          let (title, err) := requiredParam_string req "title" in
          match err with
          | Some e => ret (Returned (None, Some e))
          | None =>
              let (description, _) := requiredParam_string req "description" in
              let input := CreateProjectInput.mk owner title description in
              res <- CreateProject env input client ;;
              respond (CallCreateProject input) res
          end
      end
  end.

Definition AddProjectItemTool_handler (req : Req)
  : M R (Outcome (option CallToolResult * option error)) :=
  '(client, err) <- getClient ;;
  match err with
  | Some e => ret (Returned (None, Some e))
  | None =>
      let (projectID, err) := requiredParam_string req "project_id" in
      match err with
      | Some e => ret (Returned (None, Some e))
      | None =>
          let (contentID, err) := requiredParam_string req "content_id" in
          match err with
          | Some e => ret (Returned (None, Some e))
          | None =>
              let input := AddProjectItemInput.mk projectID contentID in
              res <- AddProjectItem env input client ;;
              respond (CallAddProjectItem input) res
          end
      end
  end.

Definition UpdateProjectItemFieldTool_handler (req : Req)
  : M R (Outcome (option CallToolResult * option error)) :=
  '(client, err) <- getClient ;;
  match err with
  | Some e => ret (Returned (None, Some e))
  | None =>
      let (projectID, err) := requiredParam_string req "project_id" in
      match err with
      | Some e => ret (Returned (None, Some e))
      | None =>
          let (itemID, err) := requiredParam_string req "item_id" in
          match err with
          | Some e => ret (Returned (None, Some e))
          | None =>
              let (fieldID, err) := requiredParam_string req "field_id" in
              match err with
              | Some e => ret (Returned (None, Some e))
              | None =>
                  let (value, err) := requiredParam_string req "value" in
                  match err with
                  | Some e => ret (Returned (None, Some e))
                  | None =>
                      let input :=
                        UpdateProjectItemFieldInput.mk projectID itemID
                          fieldID value in
                      res <- UpdateProjectItemField env input client ;;
                      respond (CallUpdateProjectItemField input) res
                  end
              end
          end
      end
  end.

(** The handler each factory returns. *)
Definition handler (t : ToolId) : Req -> M R (Outcome (option CallToolResult * option error)) :=
  match t with
  | ListOrganizationProjectsTool => ListOrganizationProjectsTool_handler
  | ListUserProjectsTool => ListUserProjectsTool_handler
  | GetProjectTool => GetProjectTool_handler
  | GetProjectItemsTool => GetProjectItemsTool_handler
  | CreateProjectTool => CreateProjectTool_handler
  | AddProjectItemTool => AddProjectItemTool_handler
  | UpdateProjectItemFieldTool => UpdateProjectItemFieldTool_handler
  end.

(** The error [requiredParam] reports for a declared parameter. *)
Definition paramError (req : Req) (p : ToolParam) : option error :=
  match kind p with
  | KString => snd (requiredParam_string req (pname p))
  | KNumber => snd (requiredParam_float64 req (pname p))
  end.

(** The call a handler makes once it has read its parameters. *)
Definition callOf (t : ToolId) (req : Req) : Call :=
  let str name := fst (requiredParam_string req name) in
  let num name := int_of_float64 (fst (requiredParam_float64 req name)) in
  match t with
  | ListOrganizationProjectsTool =>
      CallListOrganizationProjects
        (ListOrganizationProjectsInput.mk (str "organization") (num "first")
           (str "after"))
  | ListUserProjectsTool =>
      CallListUserProjects
        (ListUserProjectsInput.mk (str "user") (num "first") (str "after"))
  | GetProjectTool =>
      CallGetProject (GetProjectInput.mk (str "owner") (num "number"))
  | GetProjectItemsTool =>
      CallGetProjectItems
        (GetProjectItemsInput.mk (str "project_id") (num "first") (str "after"))
  | CreateProjectTool =>
      CallCreateProject
        (CreateProjectInput.mk (str "owner") (str "title") (str "description"))
  | AddProjectItemTool =>
      CallAddProjectItem
        (AddProjectItemInput.mk (str "project_id") (str "content_id"))
  | UpdateProjectItemFieldTool =>
      CallUpdateProjectItemField
        (UpdateProjectItemFieldInput.mk (str "project_id") (str "item_id")
           (str "field_id") (str "value"))
  end.

End Tools.


Arguments handler {R Req float64} _ _ _ _ _ _ _ _ _.
Arguments paramError {Req float64} _ _ _ _.
Arguments callOf {Req float64} _ _ _ _ _.

(** ** One tool layer, to run the handlers on

    Requests as lists of named arguments, numbers as integers, and a
    [requiredParam] that reports a parameter that is absent or of the other
    kind. *)

Inductive Arg : Type :=
| ArgString (s : string)
| ArgNumber (n : Z).

Fixpoint argOf (args : list (string * Arg)) (name : string) : option Arg :=
  match args with
  | [] => None
  | (k, a) :: rest => if k =? name then Some a else argOf rest name
  end.

Definition argString (args : list (string * Arg)) (name : string)
  : string * option error :=
  match argOf args name with
  | Some (ArgString s) => (s, None)
  | _ => ("", Some (errors_New ("missing required parameter: " ++ name)))
  end.

Definition argNumber (args : list (string * Arg)) (name : string)
  : Z * option error :=
  match argOf args name with
  | Some (ArgNumber n) => (n, None)
  | _ => (0%Z, Some (errors_New ("missing required parameter: " ++ name)))
  end.

(** A getter that hands out the remote of the tests, and one that fails. *)
Definition testGetClient : M unit (option (Client unit) * option error) :=
  ret (Some testRemote, None).

Definition failingGetClient : M unit (option (Client unit) * option error) :=
  ret (None, Some (errors_New "no client")).

(** The handlers over that tool layer; the serialization is left out. *)
Definition testHandler
    (getClient : M unit (option (Client unit) * option error)) (t : ToolId)
    (args : list (string * Arg))
  : M unit (Outcome (option CallToolResult * option error)) :=
  handler (fun n => n) argString argNumber (fun _ => "") getClient noTokenEnv
    t args.

(** ** Pages, entry by entry *)

(** The entries [l] are the nodes converted one by one, in their order,
    none of the conversions panicking. *)
Definition convertedInOrder {A B : Type} (f : A -> Outcome B)
    (nodes : slice A) (l : list B) : Prop :=
  map f (elems nodes) = map Returned l.

(** ** Remotes whose answers leave things out *)

(** A remote with nothing in it: every connection is empty, with no further
    page. *)
Definition emptyRemote : Client unit :=
  statelessClient
    (fun q =>
       match q return Decoded q * option error with
       | QOrganizationProjects _ _ _ =>
           (ProjectsV2.mk (Some []) (PageInfo.mk "" false), None)
       | QUserProjects _ _ _ =>
           (ProjectsV2.mk (Some []) (PageInfo.mk "" false), None)
       | QProjectItems _ _ _ => (Items.mk (Some []) (PageInfo.mk "" false), None)
       | q' => (zeroQ q', None)
       end)
    (fun m => (zeroM m, None)).

(** A remote whose answers carry no [url]: the project of [GetProject]
    comes with its id, number and title only, the one item of the project
    has a null content, a listed project has no url, and the creation is
    answered with an empty object. *)
Definition bareRemote : Client unit :=
  statelessClient
    (fun q =>
       match q return Decoded q * option error with
       | QProject _ _ =>
           (ProjectQ.mk
              (Some (OwnerProject.mk
                 (Some (ProjectNode.mk (Some "proj123") 123 "Test Project"
                          (mkURI None)))))
              None, None)
       | QProjectItems _ _ _ =>
           (Items.mk (Some [ ItemNode.mk (Some "item1") Content.zero ])
              (PageInfo.mk "abc" false), None)
       | QOrganizationProjects _ _ _ =>
           (ProjectsV2.mk
              (Some [ ProjectNode.mk (Some "1") 1 "Proj1" (mkURI None) ])
              (PageInfo.mk "abc" false), None)
       | QOwnerID _ =>
           (OwnerQ.mk (Some (IDNode.mk (Some "org123"))) None, None)
       | q' => (zeroQ q', None)
       end)
    (fun m =>
       match m return MDecoded m * option error with
       | MAddProjectV2ItemById _ _ =>
           (AddedItem.mk (Some "item2")
              (Some (Content.mk "Issue" (Some "c1") "Issue1" "OPEN" (mkURI None))),
            None)
       | m' => (zeroM m', None)
       end).
(** ** Facts about the string primitives *)

Arguments isGraphQLNotFound : simpl never.

Lemma HasPrefix_spec (prefix s : string) :
  HasPrefix s prefix = true <-> exists post, s = prefix ++ post.
Proof.
  revert s. induction prefix as [|c prefix IH]; intros s; simpl.
  - split; [intros _; now exists s | reflexivity].
  - destruct s as [|d s].
    + split; [discriminate | intros [post H]; discriminate].
    + rewrite andb_true_iff, Ascii.eqb_eq, IH. split.
      * intros [-> [post ->]]. now exists post.
      * intros [post H]. injection H as -> ->. split; [reflexivity | now exists post].
Qed.

Lemma Contains_spec (s substr : string) :
  Contains s substr = true <-> Substring substr s.
Proof.
  unfold Substring. induction s as [|d s IH].
  - simpl. rewrite orb_false_r, HasPrefix_spec. split.
    + intros [post H]. exists "", post. exact H.
    + intros [pre [post H]]. destruct pre as [|a pre]; [|discriminate].
      now exists post.
  - cbn [Contains]. rewrite orb_true_iff, HasPrefix_spec, IH. split.
    + intros [[post H] | [pre [post H]]].
      * exists "", post. exact H.
      * exists (String d pre), post. simpl. now rewrite H.
    + intros [pre [post H]]. destruct pre as [|a pre].
      * left. now exists post.
      * right. simpl in H. injection H as _ H. now exists pre, post.
Qed.

Lemma isGraphQLNotFound_nil : isGraphQLNotFound None = false.
Proof. reflexivity. Qed.

(** C3. For a non-nil error, [isGraphQLNotFound] answers true (NotFound)
    exactly when the error's message contains one of the four registered
    phrases, and false (Fatal) exactly when it contains none of them. *)
Theorem isGraphQLNotFound_iff_phrase (e : error) :
  (isGraphQLNotFound (Some e) = true <-> matchesNotFoundPhrase e) /\
  (isGraphQLNotFound (Some e) = false <->
     forall phrase, In phrase notFoundPhrases -> ~ Substring phrase (Error e)).
Proof.
  assert (Hiff : isGraphQLNotFound (Some e) = true <-> matchesNotFoundPhrase e).
  { unfold isGraphQLNotFound, matchesNotFoundPhrase, notFoundPhrases.
    cbv zeta. rewrite !orb_true_iff, !Contains_spec, !Exists_cons, Exists_nil. tauto. }
  split; [exact Hiff|].
  unfold matchesNotFoundPhrase in Hiff. rewrite Exists_exists in Hiff.
  split.
  - intros Hf phrase Hin Hsub.
    assert (isGraphQLNotFound (Some e) = true) as Ht
      by (apply Hiff; now exists phrase).
    congruence.
  - intros Hnone. destruct (isGraphQLNotFound (Some e)) eqn:E; [|reflexivity].
    destruct (proj1 Hiff eq_refl) as [phrase [Hin Hsub]].
    now destruct (Hnone phrase Hin).
Qed.

(** ** Owner resolver *)

Section ResolverFacts.

Context {R : Type}.
Variables (client : Client R) (owner : string).

(** One step of [query]: the answer, the new remote state and the log. *)
Lemma query_eq (q : QueryShape) (w : World R) res r :
  Query client q (fst w) = (res, r) ->
  query client q w = (res, (r, (snd w ++ [EvQuery q])%list)).
Proof. intros H. unfold query. now rewrite H. Qed.

(** The resolver after its organization lookup, when that lookup did not
    end in a Fatal error and decoded no organization. *)
Lemma resolveOwnerID_after_org (w : World R) orgErr r1 :
  Query client (QOrganizationID owner) (fst w) = ((OrgQ.mk None, orgErr), r1) ->
  isSome orgErr = isGraphQLNotFound orgErr ->
  forall userQ userErr r2,
    Query client (QUserID owner) r1 = ((userQ, userErr), r2) ->
    resolveOwnerID client owner w =
      (match userErr with
       | Some e =>
           if isGraphQLNotFound userErr
           then match UserQ.User userQ with
                | Some user => (IDNode.ID user, None)
                | None => (Some "", Some (errors_New "owner not found"))
                end
           else (Some "", Some (fmt_Errorf_w "user lookup failed" e))
       | None =>
           match UserQ.User userQ with
           | Some user => (IDNode.ID user, None)
           | None => (Some "", Some (errors_New "owner not found"))
           end
       end,
       (r2, (snd w ++ [EvQuery (QOrganizationID owner); EvQuery (QUserID owner)])%list)).
Proof.
  intros Horg Hcls userQ userErr r2 Huser.
  unfold resolveOwnerID, bind.
  rewrite (query_eq _ _ _ _ Horg).
  assert (Hq2 : query client (QUserID owner)
                  (r1, (snd w ++ [EvQuery (QOrganizationID owner)])%list)
                = ((userQ, userErr),
                   (r2, (snd w ++ [EvQuery (QOrganizationID owner);
                                   EvQuery (QUserID owner)])%list))).
  { rewrite (query_eq (QUserID owner) (r1, _) _ _ Huser). simpl.
    now rewrite <- app_assoc. }
  cbn [OrgQ.Organization].
  destruct orgErr as [e|]; cbn [isSome] in Hcls.
  - rewrite <- Hcls. simpl. rewrite Hq2. clear Hq2.
    destruct userErr as [e'|]; simpl.
    + destruct (isGraphQLNotFound (Some e')); simpl;
        destruct (UserQ.User userQ); reflexivity.
    + destruct (UserQ.User userQ); reflexivity.
  - rewrite Hq2. clear Hq2.
    destruct userErr as [e'|]; simpl.
    + destruct (isGraphQLNotFound (Some e')); simpl;
        destruct (UserQ.User userQ); reflexivity.
    + destruct (UserQ.User userQ); reflexivity.
Qed.

(** C2. When the organization lookup returns no error and an organization
    object, [resolveOwnerID] returns that organization's identifier with a
    nil error, and the only call it has issued is the organization
    lookup: the user lookup is never sent, whatever it would answer. *)
Theorem resolveOwnerID_organization_first (w : World R) org r1 :
  Query client (QOrganizationID owner) (fst w) = ((OrgQ.mk (Some org), None), r1) ->
  resolveOwnerID client owner w =
    ((IDNode.ID org, None),
     (r1, (snd w ++ [EvQuery (QOrganizationID owner)])%list)).
Proof.
  intros Horg. unfold resolveOwnerID, bind.
  now rewrite (query_eq _ _ _ _ Horg).
Qed.

(** C8. When the organization lookup returns an error that the classifier
    does not recognise as NotFound, [resolveOwnerID] returns that error
    wrapped as "organization lookup failed: <cause>", and the only call it
    has issued is the organization lookup. *)
Theorem resolveOwnerID_organization_fatal (w : World R) orgQ e r1 :
  Query client (QOrganizationID owner) (fst w) = ((orgQ, Some e), r1) ->
  isGraphQLNotFound (Some e) = false ->
  resolveOwnerID client owner w =
    ((Some "", Some (fmt_Errorf_w "organization lookup failed" e)),
     (r1, (snd w ++ [EvQuery (QOrganizationID owner)])%list)) /\
  Unwrap (fmt_Errorf_w "organization lookup failed" e) = Some e /\
  Error (fmt_Errorf_w "organization lookup failed" e) =
    "organization lookup failed: " ++ Error e.
Proof.
  intros Horg Hfatal. split; [|split; reflexivity].
  unfold resolveOwnerID, bind.
  rewrite (query_eq _ _ _ _ Horg). simpl isSome. cbv iota beta.
  now rewrite Hfatal.
Qed.

(** C9 (amended). When the organization lookup returns an error classified
    NotFound and has decoded no organization, [resolveOwnerID] issues the
    user lookup next; it returns the user's identifier with a nil error
    when that lookup returns no error and a user object, and fails with
    "owner not found" when that lookup also returns an error classified
    NotFound and has decoded no user. *)
Theorem resolveOwnerID_user_after_NotFound (w : World R) e r1 :
  Query client (QOrganizationID owner) (fst w) = ((OrgQ.mk None, Some e), r1) ->
  isGraphQLNotFound (Some e) = true ->
  (forall user r2,
      Query client (QUserID owner) r1 = ((UserQ.mk (Some user), None), r2) ->
      resolveOwnerID client owner w =
        ((IDNode.ID user, None),
         (r2, (snd w ++ [EvQuery (QOrganizationID owner);
                         EvQuery (QUserID owner)])%list))) /\
  (forall e' r2,
      Query client (QUserID owner) r1 = ((UserQ.mk None, Some e'), r2) ->
      isGraphQLNotFound (Some e') = true ->
      resolveOwnerID client owner w =
        ((Some "", Some (errors_New "owner not found")),
         (r2, (snd w ++ [EvQuery (QOrganizationID owner);
                         EvQuery (QUserID owner)])%list))).
Proof.
  intros Horg Hnf. split.
  - intros user r2 Huser.
    rewrite (resolveOwnerID_after_org w (Some e) r1 Horg (eq_sym Hnf) _ _ _ Huser).
    reflexivity.
  - intros e' r2 Huser Hnf'.
    rewrite (resolveOwnerID_after_org w (Some e) r1 Horg (eq_sym Hnf) _ _ _ Huser).
    now rewrite Hnf'.
Qed.

(** On every path the resolver returns either an identifier it decoded, with
    a nil error, or the empty identifier with an error. *)
Lemma resolveOwnerID_error_has_empty_id (w : World R) :
  let res := fst (resolveOwnerID client owner w) in
  snd res = None \/ fst res = Some "".
Proof.
  unfold resolveOwnerID, bind, ret, query.
  destruct (Query client (QOrganizationID owner) (fst w)) as [[orgQ [e|]] r1];
    cbn [isSome andb fst snd].
  - destruct (isGraphQLNotFound (Some e)); cbn [negb]; [|now right].
    destruct (OrgQ.Organization orgQ); [now left|].
    destruct (Query client (QUserID owner) _) as [[userQ [e'|]] r2];
      cbn [isSome andb fst snd].
    + destruct (isGraphQLNotFound (Some e')); cbn [negb]; [|now right].
      destruct (UserQ.User userQ); [now left | now right].
    + destruct (UserQ.User userQ); [now left | now right].
  - destruct (OrgQ.Organization orgQ); [now left|].
    destruct (Query client (QUserID owner) _) as [[userQ [e'|]] r2];
      cbn [isSome andb fst snd].
    + destruct (isGraphQLNotFound (Some e')); cbn [negb]; [|now right].
      destruct (UserQ.User userQ); [now left | now right].
    + destruct (UserQ.User userQ); [now left | now right].
Qed.

End ResolverFacts.

(** Witness of C2: "both org and user exist (prefer org)". *)
Lemma resolveOwnerID_organization_first_witness :
  resolveOwnerID (fakeGraphQLClient (Some "ORGID") (Some "USERID") None None)
    "testowner" start
  = ((Some "ORGID", None), (tt, [EvQuery (QOrganizationID "testowner")])).
Proof.
  apply (resolveOwnerID_organization_first
           (fakeGraphQLClient (Some "ORGID") (Some "USERID") None None)
           "testowner" start (IDNode.mk (Some "ORGID")) tt).
  reflexivity.
Defined.

(** Witness of C8: "org fatal error". *)
Lemma resolveOwnerID_organization_fatal_witness :
  resolveOwnerID
    (fakeGraphQLClient (Some "") (Some "USERID")
       (Some (errors_New "fatal org error")) None)
    "testowner" start
  = ((Some "", Some (fmt_Errorf_w "organization lookup failed"
                       (errors_New "fatal org error"))),
     (tt, [EvQuery (QOrganizationID "testowner")])).
Proof.
  apply (resolveOwnerID_organization_fatal
           (fakeGraphQLClient (Some "") (Some "USERID")
              (Some (errors_New "fatal org error")) None)
           "testowner" start (OrgQ.mk None) (errors_New "fatal org error") tt);
    reflexivity.
Defined.

(** Witness of C9: the organization is reported missing (404) and the
    login is a user; and "neither org nor user exist". *)
Lemma resolveOwnerID_user_after_NotFound_witness :
  resolveOwnerID
    (fakeGraphQLClient (Some "") (Some "USERID")
       (Some (errors_New "non-200 OK status code: 404")) None)
    "testowner" start
  = ((Some "USERID", None),
     (tt, [EvQuery (QOrganizationID "testowner"); EvQuery (QUserID "testowner")])) /\
  resolveOwnerID
    (fakeGraphQLClient (Some "") (Some "")
       (Some (errors_New "non-200 OK status code: 404"))
       (Some (errors_New "non-200 OK status code: 404")))
    "testowner" start
  = ((Some "", Some (errors_New "owner not found")),
     (tt, [EvQuery (QOrganizationID "testowner"); EvQuery (QUserID "testowner")])).
Proof.
  split.
  - apply (resolveOwnerID_user_after_NotFound
             (fakeGraphQLClient (Some "") (Some "USERID")
                (Some (errors_New "non-200 OK status code: 404")) None)
             "testowner" start (errors_New "non-200 OK status code: 404") tt
             eq_refl eq_refl)
      with (user := IDNode.mk (Some "USERID")).
    reflexivity.
  - apply (resolveOwnerID_user_after_NotFound
             (fakeGraphQLClient (Some "") (Some "")
                (Some (errors_New "non-200 OK status code: 404"))
                (Some (errors_New "non-200 OK status code: 404")))
             "testowner" start (errors_New "non-200 OK status code: 404") tt
             eq_refl eq_refl)
      with (e' := errors_New "non-200 OK status code: 404");
      reflexivity.
Defined.

(** Counterexample to C9 as stated: the organization lookup of
    [dataAndErrorClient] returns an error classified NotFound, the user
    lookup would succeed with a user object, and yet [resolveOwnerID]
    returns the organization decoded by the first call without issuing the
    user lookup. *)
Lemma continuesPastNotFound_fails :
  ~ continuesPastNotFound dataAndErrorClient "testowner" start.
Proof.
  intros H.
  destruct (H (OrgQ.mk (Some (IDNode.mk (Some "ORGID"))))
              (errors_New "could not resolve to a User with the login of 'testowner'")
              tt eq_refl eq_refl) as [Hlog _].
  discriminate Hlog.
Qed.

(** What the resolver does on that input. *)
Lemma resolveOwnerID_dataAndError :
  resolveOwnerID dataAndErrorClient "testowner" start
  = ((Some "ORGID", None), (tt, [EvQuery (QOrganizationID "testowner")])).
Proof. reflexivity. Qed.

(** ** Projects V2 operations *)

(** Unfolds one operation down to its calls on the world. *)
Ltac unfold_op :=
  unfold ListOrganizationProjects, ListUserProjects, GetProject,
    GetProjectItems, CreateProject, AddProjectItem, UpdateProjectItemField,
    defaultClient, bind, ret, query, mutate, getenv, newClient, succeed.

(** Splits on the next test or call result the goal is stuck on. *)
Ltac step_op :=
  match goal with
  | |- context [Query ?c ?q ?r] => destruct (Query c q r) as [[? [?|]] ?] eqn:?
  | |- context [Mutate ?c ?m ?r] => destruct (Mutate c m r) as [[? [?|]] ?] eqn:?
  | |- context [match ?x with inl _ => _ | inr _ => _ end] => destruct x
  | |- context [if ?b then _ else _] => destruct b eqn:?
  | |- context [match ?x with Some _ => _ | None => _ end] => destruct x eqn:?
  | |- context [match ?x with Returned _ => _ | Panicked => _ end] =>
      destruct x eqn:?
  end; cbn [fst snd].

Section OperationFacts.

Context {R : Type}.
Variables (env : Env R) (client : option (Client R)) (w : World R).

Lemma eqb_empty (s : string) : s = "" -> (s =? "") = true.
Proof. intros ->. reflexivity. Qed.

Lemma eqb_nonempty (s : string) : s <> "" -> (s =? "") = false.
Proof. intros H. now apply String.eqb_neq. Qed.

(** C5. Each of the seven operations, given an input whose required field
    is empty (or, for [GetProject], whose number is zero), returns a nil
    result with its validation error and leaves the world as it found it:
    nothing is logged, so no environment lookup, no client construction,
    no query and no mutation happened. *)
Theorem validation_before_any_effect :
  (forall in_, ListOrganizationProjectsInput.Organization in_ = "" ->
     ListOrganizationProjects env in_ client w =
       (Returned (None, Some (errors_New "organization is required")), w)) /\
  (forall in_, ListUserProjectsInput.User in_ = "" ->
     ListUserProjects env in_ client w =
       (Returned (None, Some (errors_New "user is required")), w)) /\
  (forall in_,
     GetProjectInput.Owner in_ = "" \/ GetProjectInput.Number in_ = 0%Z ->
     GetProject env in_ client w =
       (Returned (None, Some (errors_New "owner and number are required")), w)) /\
  (forall in_, GetProjectItemsInput.ProjectID in_ = "" ->
     GetProjectItems env in_ client w =
       (Returned (None, Some (errors_New "projectID is required")), w)) /\
  (forall in_,
     CreateProjectInput.Owner in_ = "" \/ CreateProjectInput.Title in_ = "" ->
     CreateProject env in_ client w =
       (Returned (None, Some (errors_New "owner and title are required")), w)) /\
  (forall in_,
     AddProjectItemInput.ProjectID in_ = "" \/
     AddProjectItemInput.ContentID in_ = "" ->
     AddProjectItem env in_ client w =
       (Returned (None, Some (errors_New "projectID and contentID are required")), w)) /\
  (forall in_,
     UpdateProjectItemFieldInput.ItemID in_ = "" \/
     UpdateProjectItemFieldInput.FieldID in_ = "" \/
     UpdateProjectItemFieldInput.Value in_ = "" ->
     UpdateProjectItemField env in_ client w =
       (Returned (None, Some (errors_New "itemID, fieldID, and value are required")), w)).
Proof.
  repeat split; intros in_ H.
  - unfold ListOrganizationProjects. now rewrite (eqb_empty _ H).
  - unfold ListUserProjects. now rewrite (eqb_empty _ H).
  - unfold GetProject. destruct H as [H|H].
    + now rewrite (eqb_empty _ H).
    + rewrite H, orb_true_r. reflexivity.
  - unfold GetProjectItems. now rewrite (eqb_empty _ H).
  - unfold CreateProject. destruct H as [H|H]; rewrite (eqb_empty _ H).
    + reflexivity.
    + now rewrite orb_true_r.
  - unfold AddProjectItem. destruct H as [H|H]; rewrite (eqb_empty _ H).
    + reflexivity.
    + now rewrite orb_true_r.
  - unfold UpdateProjectItemField.
    destruct H as [H|[H|H]]; rewrite (eqb_empty _ H).
    + reflexivity.
    + now rewrite orb_true_r.
    + now rewrite orb_true_r.
Qed.

(** [UpdateProjectItemField] does not require the project identifier. *)
Lemma UpdateProjectItemField_ProjectID_optional in_ :
  UpdateProjectItemFieldInput.ItemID in_ <> "" ->
  UpdateProjectItemFieldInput.FieldID in_ <> "" ->
  UpdateProjectItemFieldInput.Value in_ <> "" ->
  forall c, client = Some c ->
  snd (snd (UpdateProjectItemField env in_ client w)) =
    (snd w ++ [EvMutate (MUpdateProjectV2ItemFieldValue
                 (Some (UpdateProjectItemFieldInput.ProjectID in_))
                 (Some (UpdateProjectItemFieldInput.ItemID in_))
                 (Some (UpdateProjectItemFieldInput.FieldID in_))
                 (UpdateProjectItemFieldInput.Value in_))])%list.
Proof.
  intros H1 H2 H3 c ->. unfold_op.
  rewrite (eqb_nonempty _ H1), (eqb_nonempty _ H2), (eqb_nonempty _ H3).
  cbn [orb]. repeat step_op; reflexivity.
Qed.

(** X23. Whenever one of the seven public operations returns, it returns either
    a nil result with a non-nil error or a non-nil result with a nil error;
    [UpdateProjectItemField], which reads no URL, always returns. *)
Theorem returned_result_xor_error :
  (forall in_ res,
      fst (ListOrganizationProjects env in_ client w) = Returned res ->
      exactlyOne res) /\
  (forall in_ res,
      fst (ListUserProjects env in_ client w) = Returned res -> exactlyOne res) /\
  (forall in_ res,
      fst (GetProject env in_ client w) = Returned res -> exactlyOne res) /\
  (forall in_ res,
      fst (GetProjectItems env in_ client w) = Returned res -> exactlyOne res) /\
  (forall in_ res,
      fst (CreateProject env in_ client w) = Returned res -> exactlyOne res) /\
  (forall in_ res,
      fst (AddProjectItem env in_ client w) = Returned res -> exactlyOne res) /\
  (forall in_,
      exists res,
        fst (UpdateProjectItemField env in_ client w) = Returned res /\
        exactlyOne res).
Proof.
  unfold exactlyOne.
  repeat split; intros in_; try intros res; unfold_op; repeat step_op;
    try (intros [= <-]); try discriminate;
    try (eexists; split; [reflexivity|]);
    solve [ left; split; [reflexivity | discriminate]
          | right; split; [discriminate | reflexivity] ].
Qed.

End OperationFacts.

(** ** Pages and point lookups *)

(** A loop that converts node after node and stops in a panic at the first
    conversion that panics. *)
Lemma loop_panicked {A B O : Type} (f : A -> Outcome B) (g : O -> B -> O)
    (l : list A) :
  fold_left
    (fun acc n =>
       match acc with
       | Returned out =>
           match f n with
           | Returned b => Returned (g out b)
           | Panicked => Panicked
           end
       | Panicked => Panicked
       end) l Panicked = Panicked.
Proof. induction l as [|n l IH]; [reflexivity | exact IH]. Qed.

Lemma loop_returned {A B O : Type} (f : A -> Outcome B) (g : O -> B -> O)
    (l : list A) (l' : list B) (out : O) :
  map f l = map Returned l' ->
  fold_left
    (fun acc n =>
       match acc with
       | Returned out =>
           match f n with
           | Returned b => Returned (g out b)
           | Panicked => Panicked
           end
       | Panicked => Panicked
       end) l (Returned out) = Returned (fold_left g l' out).
Proof.
  revert l' out. induction l as [|n l IH]; intros [|b l'] out H;
    try discriminate H; [reflexivity|].
  cbn [map] in H. injection H as Hn Hl.
  cbn [fold_left]. rewrite Hn. now apply IH.
Qed.

Lemma loop_inv {A B O : Type} (f : A -> Outcome B) (g : O -> B -> O)
    (l : list A) (out res : O) :
  fold_left
    (fun acc n =>
       match acc with
       | Returned out =>
           match f n with
           | Returned b => Returned (g out b)
           | Panicked => Panicked
           end
       | Panicked => Panicked
       end) l (Returned out) = Returned res ->
  exists l', map f l = map Returned l' /\ res = fold_left g l' out.
Proof.
  revert out. induction l as [|n l IH]; intros out H.
  - exists []. cbn in H. injection H as <-. now split.
  - cbn [fold_left] in H. destruct (f n) as [b|] eqn:Hn.
    + destruct (IH _ H) as [l' [Hl ->]]. exists (b :: l').
      cbn [map]. now rewrite Hn, Hl.
    + rewrite loop_panicked in H. discriminate H.
Qed.

Lemma projects_appended (l : list Project.t) (acc : list Project.t) cursor more :
  fold_left
    (fun out p =>
       ListOrganizationProjectsOutput.set_Projects out
         (append (ListOrganizationProjectsOutput.Projects out) p))
    l (ListOrganizationProjectsOutput.mk (Some acc) cursor more)
  = ListOrganizationProjectsOutput.mk (Some (acc ++ l)%list) cursor more.
Proof.
  revert acc. induction l as [|p l IH]; intros acc; simpl.
  - now rewrite app_nil_r.
  - unfold ListOrganizationProjectsOutput.set_Projects, append. simpl.
    rewrite IH, <- app_assoc. reflexivity.
Qed.

Lemma items_appended (l : list ProjectItem.t) (acc : list ProjectItem.t)
    cursor more :
  fold_left
    (fun out i =>
       GetProjectItemsOutput.set_Items out
         (append (GetProjectItemsOutput.Items out) i))
    l (GetProjectItemsOutput.mk (Some acc) cursor more)
  = GetProjectItemsOutput.mk (Some (acc ++ l)%list) cursor more.
Proof.
  revert acc. induction l as [|i l IH]; intros acc; simpl.
  - now rewrite app_nil_r.
  - unfold GetProjectItemsOutput.set_Items, append. simpl.
    rewrite IH, <- app_assoc. reflexivity.
Qed.

Lemma projectsPage_returned (pv : ProjectsV2.t) (l : list Project.t) :
  convertedInOrder projectOfNode (ProjectsV2.Nodes pv) l ->
  projectsPage pv =
    Returned (ListOrganizationProjectsOutput.mk (Some l)
                (PageInfo.EndCursor (ProjectsV2.PageInfo pv))
                (PageInfo.HasNextPage (ProjectsV2.PageInfo pv))).
Proof.
  intros H. unfold projectsPage. cbv zeta.
  rewrite (loop_returned projectOfNode
             (fun out p =>
                ListOrganizationProjectsOutput.set_Projects out
                  (append (ListOrganizationProjectsOutput.Projects out) p))
             _ l _ H).
  now rewrite projects_appended.
Qed.

Lemma projectsPage_inv (pv : ProjectsV2.t) out :
  projectsPage pv = Returned out ->
  exists l,
    convertedInOrder projectOfNode (ProjectsV2.Nodes pv) l /\
    out = ListOrganizationProjectsOutput.mk (Some l)
            (PageInfo.EndCursor (ProjectsV2.PageInfo pv))
            (PageInfo.HasNextPage (ProjectsV2.PageInfo pv)).
Proof.
  unfold projectsPage. cbv zeta. intros H.
  apply (loop_inv projectOfNode
           (fun out p =>
              ListOrganizationProjectsOutput.set_Projects out
                (append (ListOrganizationProjectsOutput.Projects out) p))) in H.
  destruct H as [l [Hl ->]]. exists l. split; [exact Hl|].
  now rewrite projects_appended.
Qed.

Lemma itemsPage_returned (its : Items.t) (l : list ProjectItem.t) :
  convertedInOrder itemOfNode (Items.Nodes its) l ->
  itemsPage its =
    Returned (GetProjectItemsOutput.mk (Some l)
                (PageInfo.EndCursor (Items.PageInfo its))
                (PageInfo.HasNextPage (Items.PageInfo its))).
Proof.
  intros H. unfold itemsPage. cbv zeta.
  rewrite (loop_returned itemOfNode
             (fun out i =>
                GetProjectItemsOutput.set_Items out
                  (append (GetProjectItemsOutput.Items out) i))
             _ l _ H).
  now rewrite items_appended.
Qed.

Lemma itemsPage_inv (its : Items.t) out :
  itemsPage its = Returned out ->
  exists l,
    convertedInOrder itemOfNode (Items.Nodes its) l /\
    out = GetProjectItemsOutput.mk (Some l)
            (PageInfo.EndCursor (Items.PageInfo its))
            (PageInfo.HasNextPage (Items.PageInfo its)).
Proof.
  unfold itemsPage. cbv zeta. intros H.
  apply (loop_inv itemOfNode
           (fun out i =>
              GetProjectItemsOutput.set_Items out
                (append (GetProjectItemsOutput.Items out) i))) in H.
  destruct H as [l [Hl ->]]. exists l. split; [exact Hl|].
  now rewrite items_appended.
Qed.

Lemma convertedInOrder_empty {A B : Type} (f : A -> Outcome B) (nodes : slice A) :
  elems nodes = [] -> convertedInOrder f nodes [].
Proof. unfold convertedInOrder. now intros ->. Qed.

(** What becomes of a selected project: it is returned with a nil error
    when it holds a URL, and the call panics when it holds none. *)
Lemma succeed_projectOfNode (p : ProjectNode.t) :
  succeed (projectOfNode p) =
    match URI_URL (ProjectNode.URL p) with
    | Some url =>
        Returned (Some (Project.mk (fmt_Sprint (ProjectNode.ID p))
                          (ProjectNode.Number p) (ProjectNode.Title p) url),
                  None)
    | None => Panicked
    end.
Proof.
  unfold succeed, projectOfNode, URI_String.
  destruct (URI_URL (ProjectNode.URL p)); reflexivity.
Qed.

(** A root of [GetProject] yields a project when the root is non-nil and
    its [ProjectV2] is non-nil. *)
Lemma projectUnder_Some (o : option OwnerProject.t) (p : ProjectNode.t) :
  projectUnder o = Some p <-> o = Some (OwnerProject.mk (Some p)).
Proof.
  destruct o as [[pv]|]; simpl; split; intros H; try discriminate.
  - now subst.
  - now injection H.
Qed.

Section PageFacts.

Context {R : Type}.
Variables (env : Env R) (client : option (Client R)) (w : World R).

(** Runs a list operation with an accepted input whose query was answered
    with a nil error, down to the page it builds. *)
Ltac run_answered Hname Hans :=
  let c := fresh "c" in
  let w1 := fresh "w1" in
  let r := fresh "r" in
  let Hdc := fresh "Hdc" in
  let HQ := fresh "HQ" in
  destruct Hans as (c & w1 & r & Hdc & HQ);
  apply String.eqb_neq in Hname;
  unfold ListOrganizationProjects, ListUserProjects, GetProjectItems, bind, ret;
  rewrite Hname, Hdc; unfold query; rewrite HQ; cbn [fst snd].

(** Runs a list operation that returned a page back to the answer it was
    built from. *)
Ltac run_back H :=
  unfold ListOrganizationProjects, ListUserProjects, GetProjectItems, bind, ret
    in H;
  destruct (_ =? "") in H; [discriminate H|];
  destruct (defaultClient env client w) as [[c|e] w1] eqn:Hdc;
    [|discriminate H];
  unfold query in H;
  match type of H with
  | context [Query c ?q (fst w1)] =>
      destruct (Query c q (fst w1)) as [[d [e|]] r] eqn:HQ
  end; cbn [fst snd] in H; [discriminate H|].

(** C7. For each list operation: when its input is accepted and its query
    is answered with a nil error, an empty result set gives a page holding
    the empty, non-nil sequence with the answer's cursor and hasNextPage
    flag, and a result set whose nodes all convert gives a page holding
    those entries in the nodes' order; and whenever the operation returns a
    page with a nil error, the page was built this way from an answered
    query, so its sequence is never nil. *)
Theorem list_pages_never_nil_in_order :
  (forall in_ pv,
      ListOrganizationProjectsInput.Organization in_ <> "" ->
      answered env client w
        (QOrganizationProjects
           (ListOrganizationProjectsInput.Organization in_)
           (Int (ListOrganizationProjectsInput.First in_))
           (ListOrganizationProjectsInput.After in_)) pv ->
      (elems (ProjectsV2.Nodes pv) = [] ->
       fst (ListOrganizationProjects env in_ client w) =
         Returned (Some (ListOrganizationProjectsOutput.mk (Some [])
                           (PageInfo.EndCursor (ProjectsV2.PageInfo pv))
                           (PageInfo.HasNextPage (ProjectsV2.PageInfo pv))),
                   None)) /\
      (forall l,
          convertedInOrder projectOfNode (ProjectsV2.Nodes pv) l ->
          fst (ListOrganizationProjects env in_ client w) =
            Returned (Some (ListOrganizationProjectsOutput.mk (Some l)
                              (PageInfo.EndCursor (ProjectsV2.PageInfo pv))
                              (PageInfo.HasNextPage (ProjectsV2.PageInfo pv))),
                      None))) /\
  (forall in_ out,
      fst (ListOrganizationProjects env in_ client w) = Returned (Some out, None) ->
      exists pv l,
        answered env client w
          (QOrganizationProjects
             (ListOrganizationProjectsInput.Organization in_)
             (Int (ListOrganizationProjectsInput.First in_))
             (ListOrganizationProjectsInput.After in_)) pv /\
        convertedInOrder projectOfNode (ProjectsV2.Nodes pv) l /\
        out = ListOrganizationProjectsOutput.mk (Some l)
                (PageInfo.EndCursor (ProjectsV2.PageInfo pv))
                (PageInfo.HasNextPage (ProjectsV2.PageInfo pv))) /\
  (forall in_ pv,
      ListUserProjectsInput.User in_ <> "" ->
      answered env client w
        (QUserProjects
           (ListUserProjectsInput.User in_)
           (Int (ListUserProjectsInput.First in_))
           (ListUserProjectsInput.After in_)) pv ->
      (elems (ProjectsV2.Nodes pv) = [] ->
       fst (ListUserProjects env in_ client w) =
         Returned (Some (ListOrganizationProjectsOutput.mk (Some [])
                           (PageInfo.EndCursor (ProjectsV2.PageInfo pv))
                           (PageInfo.HasNextPage (ProjectsV2.PageInfo pv))),
                   None)) /\
      (forall l,
          convertedInOrder projectOfNode (ProjectsV2.Nodes pv) l ->
          fst (ListUserProjects env in_ client w) =
            Returned (Some (ListOrganizationProjectsOutput.mk (Some l)
                              (PageInfo.EndCursor (ProjectsV2.PageInfo pv))
                              (PageInfo.HasNextPage (ProjectsV2.PageInfo pv))),
                      None))) /\
  (forall in_ out,
      fst (ListUserProjects env in_ client w) = Returned (Some out, None) ->
      exists pv l,
        answered env client w
          (QUserProjects
             (ListUserProjectsInput.User in_)
             (Int (ListUserProjectsInput.First in_))
             (ListUserProjectsInput.After in_)) pv /\
        convertedInOrder projectOfNode (ProjectsV2.Nodes pv) l /\
        out = ListOrganizationProjectsOutput.mk (Some l)
                (PageInfo.EndCursor (ProjectsV2.PageInfo pv))
                (PageInfo.HasNextPage (ProjectsV2.PageInfo pv))) /\
  (forall in_ its,
      GetProjectItemsInput.ProjectID in_ <> "" ->
      answered env client w
        (QProjectItems
           (Some (GetProjectItemsInput.ProjectID in_))
           (Int (GetProjectItemsInput.First in_))
           (GetProjectItemsInput.After in_)) its ->
      (elems (Items.Nodes its) = [] ->
       fst (GetProjectItems env in_ client w) =
         Returned (Some (GetProjectItemsOutput.mk (Some [])
                           (PageInfo.EndCursor (Items.PageInfo its))
                           (PageInfo.HasNextPage (Items.PageInfo its))),
                   None)) /\
      (forall l,
          convertedInOrder itemOfNode (Items.Nodes its) l ->
          fst (GetProjectItems env in_ client w) =
            Returned (Some (GetProjectItemsOutput.mk (Some l)
                              (PageInfo.EndCursor (Items.PageInfo its))
                              (PageInfo.HasNextPage (Items.PageInfo its))),
                      None))) /\
  (forall in_ out,
      fst (GetProjectItems env in_ client w) = Returned (Some out, None) ->
      exists its l,
        answered env client w
          (QProjectItems
             (Some (GetProjectItemsInput.ProjectID in_))
             (Int (GetProjectItemsInput.First in_))
             (GetProjectItemsInput.After in_)) its /\
        convertedInOrder itemOfNode (Items.Nodes its) l /\
        out = GetProjectItemsOutput.mk (Some l)
                (PageInfo.EndCursor (Items.PageInfo its))
                (PageInfo.HasNextPage (Items.PageInfo its))).
Proof.
  split; [|split; [|split; [|split; [|split]]]].
  - intros in_ pv Hname Hans.
    assert (Hall : forall l,
               convertedInOrder projectOfNode (ProjectsV2.Nodes pv) l ->
               fst (ListOrganizationProjects env in_ client w) =
                 Returned (Some (ListOrganizationProjectsOutput.mk (Some l)
                                   (PageInfo.EndCursor (ProjectsV2.PageInfo pv))
                                   (PageInfo.HasNextPage (ProjectsV2.PageInfo pv))),
                           None)).
    { intros l Hl. run_answered Hname Hans.
      now rewrite (projectsPage_returned pv l Hl). }
    split; [|exact Hall].
    intros Hempty. apply Hall. now apply convertedInOrder_empty.
  - intros in_ out H. run_back H.
    destruct (projectsPage d) as [page|] eqn:Hpage; [|discriminate H].
    cbn in H. injection H as <-.
    destruct (projectsPage_inv d page Hpage) as [l [Hl ->]].
    exists d, l. split; [now exists c, w1, r | now split].
  - intros in_ pv Hname Hans.
    assert (Hall : forall l,
               convertedInOrder projectOfNode (ProjectsV2.Nodes pv) l ->
               fst (ListUserProjects env in_ client w) =
                 Returned (Some (ListOrganizationProjectsOutput.mk (Some l)
                                   (PageInfo.EndCursor (ProjectsV2.PageInfo pv))
                                   (PageInfo.HasNextPage (ProjectsV2.PageInfo pv))),
                           None)).
    { intros l Hl. run_answered Hname Hans.
      now rewrite (projectsPage_returned pv l Hl). }
    split; [|exact Hall].
    intros Hempty. apply Hall. now apply convertedInOrder_empty.
  - intros in_ out H. run_back H.
    destruct (projectsPage d) as [page|] eqn:Hpage; [|discriminate H].
    cbn in H. injection H as <-.
    destruct (projectsPage_inv d page Hpage) as [l [Hl ->]].
    exists d, l. split; [now exists c, w1, r | now split].
  - intros in_ its Hname Hans.
    assert (Hall : forall l,
               convertedInOrder itemOfNode (Items.Nodes its) l ->
               fst (GetProjectItems env in_ client w) =
                 Returned (Some (GetProjectItemsOutput.mk (Some l)
                                   (PageInfo.EndCursor (Items.PageInfo its))
                                   (PageInfo.HasNextPage (Items.PageInfo its))),
                           None)).
    { intros l Hl. run_answered Hname Hans.
      now rewrite (itemsPage_returned its l Hl). }
    split; [|exact Hall].
    intros Hempty. apply Hall. now apply convertedInOrder_empty.
  - intros in_ out H. run_back H.
    destruct (itemsPage d) as [page|] eqn:Hpage; [|discriminate H].
    cbn in H. injection H as <-.
    destruct (itemsPage_inv d page Hpage) as [l [Hl ->]].
    exists d, l. split; [now exists c, w1, r | now split].
Qed.

(** X22. For a [GetProject] call with a non-empty owner and a non-zero
    number whose combined query is answered with a nil error, the project
    under the organization root is the one converted when that root yields
    one, otherwise the project under the user root when that root yields
    one, and otherwise the call returns a nil project with the error
    "project not found"; the conversion returns the project when it holds a
    URL and panics when it holds none. *)
Theorem GetProject_organization_then_user (in_ : GetProjectInput.t)
    (q : ProjectQ.t) :
  GetProjectInput.Owner in_ <> "" ->
  GetProjectInput.Number in_ <> 0%Z ->
  answered env client w
    (QProject (GetProjectInput.Owner in_) (Int (GetProjectInput.Number in_))) q ->
  fst (GetProject env in_ client w) =
    match projectUnder (ProjectQ.Organization q) with
    | Some p => succeed (projectOfNode p)
    | None =>
        match projectUnder (ProjectQ.User q) with
        | Some p => succeed (projectOfNode p)
        | None => Returned (None, Some (errors_New "project not found"))
        end
    end.
Proof.
  intros Howner Hnumber (c & w1 & r & Hdc & HQ).
  unfold GetProject, bind, ret.
  apply String.eqb_neq in Howner. apply Z.eqb_neq in Hnumber.
  rewrite Howner, Hnumber. cbn [orb].
  rewrite Hdc. unfold query. rewrite HQ.
  destruct (projectUnder (ProjectQ.Organization q)); [reflexivity|].
  destruct (projectUnder (ProjectQ.User q)); reflexivity.
Qed.

(** X21. [CreateProject] sends no mutation when its combined lookup is answered
    with neither an organization nor a user. *)
Lemma CreateProject_owner_not_found (in_ : CreateProjectInput.t) c r :
  CreateProjectInput.Owner in_ <> "" ->
  CreateProjectInput.Title in_ <> "" ->
  client = Some c ->
  Query c (QOwnerID (CreateProjectInput.Owner in_)) (fst w)
    = ((OwnerQ.mk None None, None), r) ->
  CreateProject env in_ client w =
    (Returned (None, Some (errors_New "owner not found")),
     (r, (snd w ++ [EvQuery (QOwnerID (CreateProjectInput.Owner in_))])%list)).
Proof.
  intros Howner Htitle -> HQ. unfold_op.
  apply String.eqb_neq in Howner. apply String.eqb_neq in Htitle.
  rewrite Howner, Htitle. cbn [orb]. now rewrite HQ.
Qed.

(** Every item [GetProjectItems] builds has an empty [State]. *)
Lemma itemOfNode_State (n : ItemNode.t) (item : ProjectItem.t) :
  itemOfNode n = Returned item -> ProjectItem.State item = "".
Proof.
  unfold itemOfNode.
  destruct (URI_String (Content.URL (ItemNode.Content n))); [|discriminate].
  now intros [= <-].
Qed.

End PageFacts.

(** Witness of C5: an input with an empty organization, one with a zero
    number and one with an empty value, with no client and no token. *)
Lemma validation_before_any_effect_witness :
  ListOrganizationProjects noTokenEnv
    (ListOrganizationProjectsInput.mk "" 0 "") None start
    = (Returned (None, Some (errors_New "organization is required")), start) /\
  GetProject noTokenEnv (GetProjectInput.mk "test-owner" 0) None start
    = (Returned (None, Some (errors_New "owner and number are required")), start) /\
  UpdateProjectItemField noTokenEnv
    (UpdateProjectItemFieldInput.mk "proj123" "item2" "field1" "") None start
    = (Returned (None, Some (errors_New "itemID, fieldID, and value are required")),
       start).
Proof.
  destruct (validation_before_any_effect noTokenEnv None start)
    as (Hlist & _ & Hget & _ & _ & _ & Hupdate).
  split; [|split].
  - apply Hlist. reflexivity.
  - apply Hget. right. reflexivity.
  - apply Hupdate. right. right. reflexivity.
Defined.

(** Witness of C7: the three operations on a remote with nothing in it, the
    three operations on the remotes of the list tests, and a returned page
    traced back to its answer. *)
Lemma list_pages_never_nil_in_order_witness :
  (fst (ListOrganizationProjects noTokenEnv
          (ListOrganizationProjectsInput.mk "empty-org" 0 "")
          (Some emptyRemote) start)
   = Returned (Some (ListOrganizationProjectsOutput.mk (Some []) "" false), None) /\
   fst (ListUserProjects noTokenEnv
          (ListUserProjectsInput.mk "new-user" 0 "") (Some emptyRemote) start)
   = Returned (Some (ListOrganizationProjectsOutput.mk (Some []) "" false), None) /\
   fst (GetProjectItems noTokenEnv
          (GetProjectItemsInput.mk "proj123" 0 "") (Some emptyRemote) start)
   = Returned (Some (GetProjectItemsOutput.mk (Some []) "" false), None)) /\
  (fst (ListOrganizationProjects noTokenEnv
          (ListOrganizationProjectsInput.mk "test-org" 0 "")
          (Some testRemote) start)
   = Returned (Some (ListOrganizationProjectsOutput.mk
                       (Some [ Project.mk "1" 1 "Proj1" "http://example.com/p1";
                               Project.mk "2" 2 "Proj2" "http://example.com/p2" ])
                       "abc" false), None) /\
   fst (ListUserProjects noTokenEnv
          (ListUserProjectsInput.mk "test-user" 0 "") (Some testRemote) start)
   = Returned (Some (ListOrganizationProjectsOutput.mk
                       (Some [ Project.mk "1" 1 "Proj1" "http://example.com/p1" ])
                       "abc" false), None) /\
   fst (GetProjectItems noTokenEnv
          (GetProjectItemsInput.mk "proj123" 0 "") (Some testRemote) start)
   = Returned (Some (GetProjectItemsOutput.mk
                       (Some [ ProjectItem.mk "item1" "c1" "Issue" "Issue1" ""
                                 "http://example.com/i1" ])
                       "abc" false), None)) /\
  (exists pv l,
      answered noTokenEnv (Some testRemote) start
        (QUserProjects "test-user" (Int 0) "") pv /\
      convertedInOrder projectOfNode (ProjectsV2.Nodes pv) l /\
      ListOrganizationProjectsOutput.mk
        (Some [ Project.mk "1" 1 "Proj1" "http://example.com/p1" ]) "abc" false
      = ListOrganizationProjectsOutput.mk (Some l)
          (PageInfo.EndCursor (ProjectsV2.PageInfo pv))
          (PageInfo.HasNextPage (ProjectsV2.PageInfo pv))).
Proof.
  pose proof (list_pages_never_nil_in_order noTokenEnv (Some emptyRemote) start)
    as (Horg0 & _ & Huser0 & _ & Hitems0 & _).
  pose proof (list_pages_never_nil_in_order noTokenEnv (Some testRemote) start)
    as (Horg & _ & Huser & Huser_back & Hitems & _).
  assert (Hans : forall q d,
             Query emptyRemote q tt = ((d, None), tt) ->
             answered noTokenEnv (Some emptyRemote) start q d).
  { intros q d HQ. exists emptyRemote, start, tt. split; [reflexivity | exact HQ]. }
  assert (Hans' : forall q d,
             Query testRemote q tt = ((d, None), tt) ->
             answered noTokenEnv (Some testRemote) start q d).
  { intros q d HQ. exists testRemote, start, tt. split; [reflexivity | exact HQ]. }
  split; [|split].
  - split; [|split].
    + apply (Horg0 (ListOrganizationProjectsInput.mk "empty-org" 0 "")
                   (ProjectsV2.mk (Some []) (PageInfo.mk "" false)));
        [discriminate | apply Hans; reflexivity | reflexivity].
    + apply (Huser0 (ListUserProjectsInput.mk "new-user" 0 "")
                    (ProjectsV2.mk (Some []) (PageInfo.mk "" false)));
        [discriminate | apply Hans; reflexivity | reflexivity].
    + apply (Hitems0 (GetProjectItemsInput.mk "proj123" 0 "")
                     (Items.mk (Some []) (PageInfo.mk "" false)));
        [discriminate | apply Hans; reflexivity | reflexivity].
  - split; [|split].
    + apply (Horg (ListOrganizationProjectsInput.mk "test-org" 0 "")
                  testOrgProjects);
        [discriminate | apply Hans'; reflexivity | reflexivity].
    + apply (Huser (ListUserProjectsInput.mk "test-user" 0 "") testUserProjects);
        [discriminate | apply Hans'; reflexivity | reflexivity].
    + apply (Hitems (GetProjectItemsInput.mk "proj123" 0 "") testItems);
        [discriminate | apply Hans'; reflexivity | reflexivity].
  - apply (Huser_back (ListUserProjectsInput.mk "test-user" 0 "")).
    reflexivity.
Defined.

(** Witness of X22: no client is passed, the token is set, and the default
    client reaches a remote where the owner is an organization. *)
Lemma GetProject_organization_then_user_witness :
  fst (GetProject tokenEnv (GetProjectInput.mk "octo-org" 7) None start)
  = Returned (Some (Project.mk "PVT_7" 7 "Roadmap"
                      "https://github.com/orgs/octo-org/projects/7"), None).
Proof.
  apply (GetProject_organization_then_user tokenEnv None start
           (GetProjectInput.mk "octo-org" 7)
           (ProjectQ.mk
              (Some (OwnerProject.mk
                 (Some (ProjectNode.mk (Some "PVT_7") 7 "Roadmap"
                          (mkURI (Some "https://github.com/orgs/octo-org/projects/7"))))))
              None)).
  - discriminate.
  - discriminate.
  - exists octoRemote, (tt, [EvGetenv "GITHUB_PERSONAL_ACCESS_TOKEN";
                             EvNewClient "ghp_token"]), tt.
    split; reflexivity.
Defined.

(** ** Where the code departs from the specification *)

(** C1. On the remote of the test "owner is user", [resolveOwnerID]
    resolves the login to the user, while [CreateProject] sends one
    combined lookup, finds no owner in its answer and fails with "owner not
    found"; on a remote that reports the unknown organization as a NotFound
    error, [resolveOwnerID] continues to the user, while [CreateProject]
    returns the error wrapped as "owner lookup failed". *)
Theorem CreateProject_does_not_follow_resolver :
  resolveOwnerID ownerIsUserRemote "user-login" start
    = ((Some "user123", None),
       (tt, [EvQuery (QOrganizationID "user-login"); EvQuery (QUserID "user-login")])) /\
  CreateProject noTokenEnv
      (CreateProjectInput.mk "user-login" "Project for User" "")
      (Some ownerIsUserRemote) start
    = (Returned (None, Some (errors_New "owner not found")),
       (tt, [EvQuery (QOwnerID "user-login")])) /\
  resolveOwnerID userOnlyRemote "user-login" start
    = ((Some "user123", None),
       (tt, [EvQuery (QOrganizationID "user-login"); EvQuery (QUserID "user-login")])) /\
  isGraphQLNotFound (Some orgUnresolved) = true /\
  CreateProject noTokenEnv
      (CreateProjectInput.mk "user-login" "Project for User" "")
      (Some userOnlyRemote) start
    = (Returned (None, Some (fmt_Errorf_w "owner lookup failed" orgUnresolved)),
       (tt, [EvQuery (QOwnerID "user-login")])).
Proof. repeat split; reflexivity. Qed.

(** C4. For a project whose only item is an open issue, [GetProjectItems]
    returns the item with identifier, content identifier, kind, title and
    URL filled in and an empty [State], while [AddProjectItem] given the
    same content returns it with [State] set to "OPEN". *)
Theorem GetProjectItems_drops_State :
  fst (GetProjectItems noTokenEnv (GetProjectItemsInput.mk "proj123" 0 "")
         (Some testRemote) start)
    = Returned (Some (GetProjectItemsOutput.mk
                        (Some [ ProjectItem.mk "item1" "c1" "Issue" "Issue1" ""
                                  "http://example.com/i1" ])
                        "abc" false), None) /\
  fst (AddProjectItem noTokenEnv (AddProjectItemInput.mk "proj123" "c1")
         (Some testRemote) start)
    = Returned (Some (AddProjectItemOutput.mk
                        (ProjectItem.mk "item2" "c1" "Issue" "Issue1" "OPEN"
                           "http://example.com/i1")), None).
Proof. split; reflexivity. Qed.


(** C10. On answers that carry no [url] the operations return neither a
    result nor an error, they panic: [GetProjectItems] on an item whose
    content is null, [CreateProject] on an empty answer to its creation,
    [ListOrganizationProjects] and [GetProject] on a project without a
    [url], [AddProjectItem] on a content without a [url]. *)
Theorem operations_panic_without_url :
  fst (GetProjectItems noTokenEnv (GetProjectItemsInput.mk "proj123" 0 "")
         (Some bareRemote) start) = Panicked /\
  fst (CreateProject noTokenEnv
         (CreateProjectInput.mk "org-login" "Project for Org" "")
         (Some bareRemote) start) = Panicked /\
  fst (ListOrganizationProjects noTokenEnv
         (ListOrganizationProjectsInput.mk "test-org" 0 "")
         (Some bareRemote) start) = Panicked /\
  fst (GetProject noTokenEnv (GetProjectInput.mk "test-owner" 123)
         (Some bareRemote) start) = Panicked /\
  fst (AddProjectItem noTokenEnv (AddProjectItemInput.mk "proj123" "c1")
         (Some bareRemote) start) = Panicked.
Proof. repeat split; reflexivity. Qed.

(** Witness of X23: the list of the test returns a page, and a transport
    failure returns an error. *)
Lemma returned_result_xor_error_witness :
  exactlyOne
    (Some (ListOrganizationProjectsOutput.mk
             (Some [ Project.mk "1" 1 "Proj1" "http://example.com/p1";
                     Project.mk "2" 2 "Proj2" "http://example.com/p2" ])
             "abc" false), None) /\
  exactlyOne
    (@None Project.t,
     Some (fmt_Errorf_w "github graphql error" (errors_New "connection refused"))).
Proof.
  split.
  - destruct (returned_result_xor_error noTokenEnv (Some testRemote) start)
      as (Hlist & _).
    apply (Hlist (ListOrganizationProjectsInput.mk "test-org" 0 "")).
    reflexivity.
  - destruct (returned_result_xor_error noTokenEnv
                (Some (downClient (errors_New "connection refused"))) start)
      as (_ & _ & Hget & _).
    apply (Hget (GetProjectInput.mk "test-owner" 123)).
    reflexivity.
Defined.

(** ** Credentials, clients and effects of every operation *)

Section FamilyFacts.

Context {R : Type}.
Variables (env : Env R) (w : World R).

(** X1. An operation called without a client, in an environment without a
    token, reads the variable, builds no client, sends nothing and fails. *)
Theorem missing_token_stops_the_operation (c : Call) :
  rejected c = false ->
  os_Getenv env tokenKey = "" ->
  run env c None w =
    (Returned (None, Some tokenNotSet),
     (fst w, (snd w ++ [EvGetenv tokenKey])%list)).
Proof.
  intros Hok Htoken.
  destruct c; cbn [rejected] in Hok; cbn [run]; unfold_op;
    rewrite Hok; unfold tokenKey in Htoken; rewrite Htoken; reflexivity.
Qed.

(** X2. An operation called without a client, in an environment with a token,
    reads the variable, builds the client from the token, and from there on
    is the operation called with that client. *)
Theorem nil_client_is_the_token_client (c : Call) :
  rejected c = false ->
  os_Getenv env tokenKey <> "" ->
  run env c None w =
    run env c (Some (ghv4_NewClient env (os_Getenv env tokenKey)))
      (fst w, (snd w ++ [EvGetenv tokenKey;
                         EvNewClient (os_Getenv env tokenKey)])%list).
Proof.
  intros Hok Htoken. apply String.eqb_neq in Htoken.
  destruct c; cbn [rejected] in Hok; cbn [run]; unfold_op;
    rewrite Hok; unfold tokenKey in *; rewrite Htoken; cbn [fst snd];
    rewrite <- !app_assoc; reflexivity.
Qed.

(** An operation called with a client never looks at the environment. *)
Theorem supplied_client_ignores_environment (env' : Env R) (c : Call)
    (cl : Client R) :
  run env c (Some cl) w = run env' c (Some cl) w.
Proof. destruct c; reflexivity. Qed.

(** X3. With a client and an accepted input, an operation logs its one network
    call and nothing else; only [CreateProject] may follow it with a second
    call, the creation, carrying the title and the description of the
    input. *)
Theorem one_network_call_per_operation (c : Call) (cl : Client R) :
  rejected c = false ->
  exists rest,
    snd (snd (run env c (Some cl) w)) = (snd w ++ request c :: rest)%list /\
    (rest = [] \/
     exists in_ ownerId,
       c = CallCreateProject in_ /\
       rest = [EvMutate (MCreateProjectV2 ownerId
                           (CreateProjectInput.Title in_)
                           (CreateProjectInput.Description in_))]).
Proof.
  intros Hok.
  destruct c; cbn [rejected] in Hok; cbn [run request]; unfold_op; rewrite Hok;
    try (exists []; split; [|now left];
         repeat step_op; reflexivity).
  destruct (Query cl (QOwnerID (CreateProjectInput.Owner in_)) (fst w))
    as [[ownerQ [e|]] r1]; cbn [fst snd].
  - exists []. split; [reflexivity | now left].
  - destruct (ownerIDOf ownerQ) as [ownerId|].
    + exists [EvMutate (MCreateProjectV2 ownerId
                          (CreateProjectInput.Title in_)
                          (CreateProjectInput.Description in_))].
      assert (Hdesc : (if negb (CreateProjectInput.Description in_ =? "")
                       then CreateProjectInput.Description in_ else "")
                      = CreateProjectInput.Description in_).
      { destruct (CreateProjectInput.Description in_ =? "") eqn:E; [|reflexivity].
        apply String.eqb_eq in E. now rewrite E. }
      rewrite Hdesc. split.
      * cbn [fst snd].
        destruct (Mutate cl (MCreateProjectV2 ownerId
                               (CreateProjectInput.Title in_)
                               (CreateProjectInput.Description in_)) r1)
          as [[m [e|]] r2]; cbn [fst snd];
          rewrite <- app_assoc; reflexivity.
      * right. now exists in_, ownerId.
    + exists []. split; [reflexivity | now left].
Qed.

(** X4. With a client and an accepted input, an error of the first network call
    ends the operation: the result is nil, the error is the cause wrapped in
    the operation's context, whatever the call decoded is dropped and
    nothing else is sent. *)
Theorem transport_error_is_wrapped (c : Call) (cl : Client R) (e : error) :
  rejected c = false ->
  failure cl (request c) (fst w) = Some e ->
  fst (run env c (Some cl) w)
    = Returned (None, Some (fmt_Errorf_w (context c) e)) /\
  snd (snd (run env c (Some cl) w)) = (snd w ++ [request c])%list.
Proof.
  intros Hok Hfail.
  destruct c; cbn [rejected] in Hok; cbn [run request context];
    cbn [request failure] in Hfail; unfold_op; rewrite Hok;
    match type of Hfail with
    | snd (fst ?call) = _ => destruct call as [[d err] r]
    end; cbn [fst snd] in *; subst err; split; reflexivity.
Qed.

End FamilyFacts.

(** Witness: [GetProject] with neither client nor token. *)
Lemma missing_token_stops_the_operation_witness :
  GetProject noTokenEnv (GetProjectInput.mk "test-owner" 123) None start
  = (Returned (None, Some tokenNotSet), (tt, [EvGetenv tokenKey])).
Proof.
  apply (missing_token_stops_the_operation noTokenEnv start
           (CallGetProject (GetProjectInput.mk "test-owner" 123)));
    reflexivity.
Defined.

(** Witness: [GetProject] without a client where the token is set. *)
Lemma nil_client_is_the_token_client_witness :
  GetProject tokenEnv (GetProjectInput.mk "octo-org" 7) None start
  = GetProject tokenEnv (GetProjectInput.mk "octo-org" 7) (Some octoRemote)
      (tt, [EvGetenv tokenKey; EvNewClient "ghp_token"]).
Proof.
  apply (nil_client_is_the_token_client tokenEnv start
           (CallGetProject (GetProjectInput.mk "octo-org" 7))).
  - reflexivity.
  - discriminate.
Defined.

(** Witness: the creation on the remote where both roots resolve logs the
    lookup and then the mutation. *)
Lemma one_network_call_per_operation_witness :
  exists rest,
    snd (snd (CreateProject noTokenEnv
                (CreateProjectInput.mk "ambiguous-login" "Ambiguous Project" "")
                (Some ambiguousRemote) start))
    = ([] ++ EvQuery (QOwnerID "ambiguous-login") :: rest)%list /\
    (rest = [] \/
     exists in_ ownerId,
       CallCreateProject
         (CreateProjectInput.mk "ambiguous-login" "Ambiguous Project" "")
       = CallCreateProject in_ /\
       rest = [EvMutate (MCreateProjectV2 ownerId
                           (CreateProjectInput.Title in_)
                           (CreateProjectInput.Description in_))]).
Proof.
  apply (one_network_call_per_operation noTokenEnv start
           (CallCreateProject
              (CreateProjectInput.mk "ambiguous-login" "Ambiguous Project" ""))
           ambiguousRemote).
  reflexivity.
Defined.

(** Witness: listing against a remote that is down. *)
Lemma transport_error_is_wrapped_witness :
  fst (ListUserProjects noTokenEnv (ListUserProjectsInput.mk "test-user" 0 "")
         (Some (downClient (errors_New "connection refused"))) start)
  = Returned (None, Some (fmt_Errorf_w "github graphql error"
                            (errors_New "connection refused"))) /\
  snd (snd (ListUserProjects noTokenEnv
              (ListUserProjectsInput.mk "test-user" 0 "")
              (Some (downClient (errors_New "connection refused"))) start))
  = ([] ++ [EvQuery (QUserProjects "test-user" (Int 0) "")])%list.
Proof.
  apply (transport_error_is_wrapped noTokenEnv start
           (CallListUserProjects (ListUserProjectsInput.mk "test-user" 0 ""))
           (downClient (errors_New "connection refused"))
           (errors_New "connection refused"));
    reflexivity.
Defined.

(** ** More on the classifier *)

Lemma Contains_append (a b phrase : string) :
  Contains b phrase = true -> Contains (a ++ b) phrase = true.
Proof.
  intros H. induction a as [|c a IH]; [exact H|].
  change (HasPrefix (String c (a ++ b)) phrase || Contains (a ++ b) phrase = true).
  rewrite IH. apply orb_true_r.
Qed.

(** X5. Wrapping an error with any context keeps a NotFound classification:
    the cause's message is part of the wrapper's. *)
Theorem wrapped_NotFound_stays_NotFound (ctx : string) (e : error) :
  isGraphQLNotFound (Some e) = true ->
  isGraphQLNotFound (Some (fmt_Errorf_w ctx e)) = true.
Proof.
  unfold isGraphQLNotFound. cbv zeta. cbn [Error].
  rewrite !orb_true_iff.
  intros [[[H|H]|H]|H];
    apply (Contains_append ": ") in H;
    apply (Contains_append ctx) in H; tauto.
Qed.

(** X6. The contexts the package itself wraps errors in add nothing a phrase
    could match: an error wrapped by the package is classified as its
    cause is. *)
Theorem package_wrapping_keeps_classification (ctx : string) (e : error) :
  In ctx wrapContexts ->
  isGraphQLNotFound (Some (fmt_Errorf_w ctx e)) = isGraphQLNotFound (Some e).
Proof.
  unfold wrapContexts. cbn [In].
  intros [<-|[<-|[<-|[<-|[]]]]]; unfold isGraphQLNotFound; cbv zeta;
    cbn [Error]; generalize (Error e); intros msg; reflexivity.
Qed.

Lemma wrapped_NotFound_stays_NotFound_witness :
  isGraphQLNotFound
    (Some (fmt_Errorf_w "while syncing the board"
             (errors_New "non-200 OK status code: 404 Not Found"))) = true.
Proof.
  apply (wrapped_NotFound_stays_NotFound "while syncing the board"
           (errors_New "non-200 OK status code: 404 Not Found")).
  reflexivity.
Defined.

Lemma package_wrapping_keeps_classification_witness :
  isGraphQLNotFound
    (Some (fmt_Errorf_w "owner lookup failed" orgUnresolved))
  = isGraphQLNotFound (Some orgUnresolved).
Proof.
  apply (package_wrapping_keeps_classification "owner lookup failed" orgUnresolved).
  right. right. left. reflexivity.
Defined.

(** ** More on the owner resolver *)

Lemma isFatal_false (err : option error) :
  isFatal err = false -> isSome err = isGraphQLNotFound err.
Proof.
  unfold isFatal. destruct err as [e|]; cbn [isSome andb negb]; [|reflexivity].
  destruct (isGraphQLNotFound (Some e)); [reflexivity | discriminate].
Qed.

Section ResolverMore.

Context {R : Type}.
Variables (client : Client R) (owner : string) (w : World R).

(** X7. When the organization lookup neither fails fatally nor decodes an
    organization, and the user lookup returns an error that is not
    NotFound, the resolver returns that error wrapped as "user lookup
    failed: <cause>", after both lookups. *)
Theorem resolveOwnerID_user_fatal orgErr r1 userQ e r2 :
  Query client (QOrganizationID owner) (fst w) = ((OrgQ.mk None, orgErr), r1) ->
  isFatal orgErr = false ->
  Query client (QUserID owner) r1 = ((userQ, Some e), r2) ->
  isGraphQLNotFound (Some e) = false ->
  resolveOwnerID client owner w =
    ((Some "", Some (fmt_Errorf_w "user lookup failed" e)),
     (r2, (snd w ++ [EvQuery (QOrganizationID owner);
                     EvQuery (QUserID owner)])%list)).
Proof.
  intros Horg Hnf Huser Hfatal.
  rewrite (resolveOwnerID_after_org client owner w orgErr r1 Horg
             (isFatal_false _ Hnf) _ _ _ Huser).
  now rewrite Hfatal.
Qed.

(** X8. When neither lookup fails fatally and the organization lookup decodes
    no organization, the user lookup's struct decides: a decoded user gives
    its identifier with a nil error, errors of either lookup notwithstanding;
    no user gives "owner not found", also when both lookups returned no
    error at all. *)
Theorem resolveOwnerID_user_decides orgErr r1 userQ userErr r2 :
  Query client (QOrganizationID owner) (fst w) = ((OrgQ.mk None, orgErr), r1) ->
  isFatal orgErr = false ->
  Query client (QUserID owner) r1 = ((userQ, userErr), r2) ->
  isFatal userErr = false ->
  fst (resolveOwnerID client owner w) =
    match UserQ.User userQ with
    | Some user => (IDNode.ID user, None)
    | None => (Some "", Some (errors_New "owner not found"))
    end.
Proof.
  intros Horg Hnf Huser Hnf'.
  rewrite (resolveOwnerID_after_org client owner w orgErr r1 Horg
             (isFatal_false _ Hnf) _ _ _ Huser).
  apply isFatal_false in Hnf'. cbn [fst].
  destruct userErr as [e'|]; [|reflexivity].
  cbn [isSome] in Hnf'. now rewrite <- Hnf'.
Qed.

(** X9. The resolver sends the organization lookup first, and the user lookup
    for the same login exactly when the organization lookup neither failed
    fatally nor decoded an organization; it sends nothing else. *)
Theorem resolveOwnerID_lookups orgQ orgErr r1 :
  Query client (QOrganizationID owner) (fst w) = ((orgQ, orgErr), r1) ->
  snd (snd (resolveOwnerID client owner w)) =
    (snd w ++ EvQuery (QOrganizationID owner) ::
       (if isFatal orgErr || isSome (OrgQ.Organization orgQ)
        then [] else [EvQuery (QUserID owner)]))%list.
Proof.
  intros Horg. unfold resolveOwnerID, bind, ret.
  rewrite (query_eq client _ _ _ _ Horg). unfold isFatal, query.
  destruct orgErr as [e|]; cbn [isSome andb negb fst snd].
  - destruct (isGraphQLNotFound (Some e)); cbn [negb orb]; [|reflexivity].
    destruct (OrgQ.Organization orgQ); cbn [isSome fst snd]; [reflexivity|].
    destruct (Query client (QUserID owner) r1) as [[userQ [e'|]] r2];
      cbn [isSome andb fst snd]; rewrite <- app_assoc.
    + destruct (isGraphQLNotFound (Some e')); cbn [negb];
        destruct (UserQ.User userQ); reflexivity.
    + destruct (UserQ.User userQ); reflexivity.
  - destruct (OrgQ.Organization orgQ); cbn [isSome fst snd]; [reflexivity|].
    destruct (Query client (QUserID owner) r1) as [[userQ [e'|]] r2];
      cbn [isSome andb fst snd]; rewrite <- app_assoc.
    + destruct (isGraphQLNotFound (Some e')); cbn [negb];
        destruct (UserQ.User userQ); reflexivity.
    + destruct (UserQ.User userQ); reflexivity.
Qed.

Lemma resolveOwnerID_error_cases (err : error) :
  snd (fst (resolveOwnerID client owner w)) = Some err ->
  fst (fst (resolveOwnerID client owner w)) = Some "" /\
  ((exists e, err = fmt_Errorf_w "organization lookup failed" e /\
              isGraphQLNotFound (Some e) = false) \/
   (exists e, err = fmt_Errorf_w "user lookup failed" e /\
              isGraphQLNotFound (Some e) = false) \/
   err = errors_New "owner not found").
Proof.
  unfold resolveOwnerID, bind, ret, query.
  destruct (Query client (QOrganizationID owner) (fst w)) as [[orgQ [e|]] r1];
    cbn [isSome andb fst snd].
  - destruct (isGraphQLNotFound (Some e)) eqn:Ee; cbn [negb fst snd].
    + destruct (OrgQ.Organization orgQ); cbn [fst snd]; [discriminate|].
      destruct (Query client (QUserID owner) r1) as [[userQ [e'|]] r2];
        cbn [isSome andb fst snd].
      * destruct (isGraphQLNotFound (Some e')) eqn:Ee'; cbn [negb fst snd].
        -- destruct (UserQ.User userQ); cbn [fst snd]; [discriminate|].
           intros [= <-]. split; [reflexivity | now right; right].
        -- intros [= <-]. split; [reflexivity|]. right. left. now exists e'.
      * destruct (UserQ.User userQ); cbn [fst snd]; [discriminate|].
        intros [= <-]. split; [reflexivity | now right; right].
    + intros [= <-]. split; [reflexivity|]. left. now exists e.
  - destruct (OrgQ.Organization orgQ); cbn [fst snd]; [discriminate|].
    destruct (Query client (QUserID owner) r1) as [[userQ [e'|]] r2];
      cbn [isSome andb fst snd].
    + destruct (isGraphQLNotFound (Some e')) eqn:Ee'; cbn [negb fst snd].
      * destruct (UserQ.User userQ); cbn [fst snd]; [discriminate|].
        intros [= <-]. split; [reflexivity | now right; right].
      * intros [= <-]. split; [reflexivity|]. right. left. now exists e'.
    + destruct (UserQ.User userQ); cbn [fst snd]; [discriminate|].
      intros [= <-]. split; [reflexivity | now right; right].
Qed.

(** X10. Whenever the resolver returns an error, the identifier is empty and the
    error is one of three: a Fatal cause wrapped as "organization lookup
    failed", a Fatal cause wrapped as "user lookup failed", or "owner not
    found"; and none of them is itself classified NotFound. *)
Theorem resolveOwnerID_errors (err : error) :
  snd (fst (resolveOwnerID client owner w)) = Some err ->
  fst (fst (resolveOwnerID client owner w)) = Some "" /\
  ((exists e, err = fmt_Errorf_w "organization lookup failed" e /\
              isGraphQLNotFound (Some e) = false) \/
   (exists e, err = fmt_Errorf_w "user lookup failed" e /\
              isGraphQLNotFound (Some e) = false) \/
   err = errors_New "owner not found") /\
  isGraphQLNotFound (Some err) = false.
Proof.
  intros H. destruct (resolveOwnerID_error_cases err H) as [Hid Hcases].
  split; [exact Hid|]. split; [exact Hcases|].
  destruct Hcases as [[e [-> He]]|[[e [-> He]]| ->]].
  - transitivity (isGraphQLNotFound (Some e)); [|exact He].
    unfold isGraphQLNotFound. cbv zeta. cbn [Error].
    generalize (Error e). intros msg. reflexivity.
  - transitivity (isGraphQLNotFound (Some e)); [|exact He].
    unfold isGraphQLNotFound. cbv zeta. cbn [Error].
    generalize (Error e). intros msg. reflexivity.
  - reflexivity.
Qed.

End ResolverMore.

Lemma resolveOwnerID_user_fatal_witness :
  resolveOwnerID
    (fakeGraphQLClient (Some "") (Some "")
       (Some (errors_New "non-200 OK status code: 404"))
       (Some (errors_New "fatal user error")))
    "testowner" start
  = ((Some "", Some (fmt_Errorf_w "user lookup failed"
                       (errors_New "fatal user error"))),
     (tt, ([] ++ [EvQuery (QOrganizationID "testowner");
                  EvQuery (QUserID "testowner")])%list)).
Proof.
  apply (resolveOwnerID_user_fatal
           (fakeGraphQLClient (Some "") (Some "")
              (Some (errors_New "non-200 OK status code: 404"))
              (Some (errors_New "fatal user error")))
           "testowner" start
           (Some (errors_New "non-200 OK status code: 404")) tt
           (UserQ.mk None) (errors_New "fatal user error") tt);
    reflexivity.
Defined.

Lemma resolveOwnerID_user_decides_witness :
  fst (resolveOwnerID (fakeGraphQLClient (Some "") (Some "USERID") None None)
         "testowner" start)
  = (Some "USERID", None).
Proof.
  apply (resolveOwnerID_user_decides
           (fakeGraphQLClient (Some "") (Some "USERID") None None)
           "testowner" start None tt
           (UserQ.mk (Some (IDNode.mk (Some "USERID")))) None tt);
    reflexivity.
Defined.

Lemma resolveOwnerID_lookups_witness :
  snd (snd (resolveOwnerID
              (fakeGraphQLClient (Some "") (Some "USERID") None None)
              "testowner" start))
  = ([] ++ [EvQuery (QOrganizationID "testowner"); EvQuery (QUserID "testowner")])%list.
Proof.
  apply (resolveOwnerID_lookups
           (fakeGraphQLClient (Some "") (Some "USERID") None None)
           "testowner" start (OrgQ.mk None) None tt).
  reflexivity.
Defined.

Lemma resolveOwnerID_errors_witness :
  fst (fst (resolveOwnerID
              (fakeGraphQLClient (Some "") (Some "USERID")
                 (Some (errors_New "fatal org error")) None)
              "testowner" start)) = Some "" /\
  ((exists e, fmt_Errorf_w "organization lookup failed"
                (errors_New "fatal org error")
              = fmt_Errorf_w "organization lookup failed" e /\
              isGraphQLNotFound (Some e) = false) \/
   (exists e, fmt_Errorf_w "organization lookup failed"
                (errors_New "fatal org error")
              = fmt_Errorf_w "user lookup failed" e /\
              isGraphQLNotFound (Some e) = false) \/
   fmt_Errorf_w "organization lookup failed" (errors_New "fatal org error")
   = errors_New "owner not found") /\
  isGraphQLNotFound
    (Some (fmt_Errorf_w "organization lookup failed"
             (errors_New "fatal org error"))) = false.
Proof.
  apply (resolveOwnerID_errors
           (fakeGraphQLClient (Some "") (Some "USERID")
              (Some (errors_New "fatal org error")) None)
           "testowner" start).
  reflexivity.
Defined.

(** X11. Against every [fakeGraphQLClient] the resolver does continue past a
    NotFound organization lookup: the fake returns an error without
    touching the destination struct. *)
Theorem fakeGraphQLClient_continuesPastNotFound
    (orgID userID : ID) (orgErr userErr : option error)
    (owner : string) (w : World unit) :
  continuesPastNotFound (fakeGraphQLClient orgID userID orgErr userErr) owner w.
Proof.
  intros orgQ e r1 Horg Hnf.
  assert (HorgQ : orgQ = OrgQ.mk None).
  { cbn in Horg. destruct orgErr as [e0|].
    - now injection Horg as <- _ _.
    - destruct orgID as [[|]|]; discriminate Horg. }
  subst orgQ.
  destruct (Query (fakeGraphQLClient orgID userID orgErr userErr)
              (QUserID owner) r1) as [[userQ userErr'] r2] eqn:Huser.
  rewrite (resolveOwnerID_after_org _ owner w (Some e) r1 Horg (eq_sym Hnf)
             _ _ _ Huser).
  cbn [fst snd]. split; [reflexivity|]. split.
  - intros user r2' [= -> -> _]. reflexivity.
  - intros userQ' e' r2' [= -> -> _] Hnf'. rewrite Hnf'.
    cbn in Huser. destruct userErr as [e0|].
    + now injection Huser as <- _ _.
    + destruct userID as [[|]|]; discriminate Huser.
Qed.

(** ** Mutations *)

Section MutationFacts.

Context {R : Type}.
Variables (env : Env R) (cl : Client R) (w : World R).

(** X12. With an owner and a title, and a combined lookup answered without
    error, [CreateProject] sends one creation carrying the organization's
    identifier when the answer holds an organization (also when it holds a
    user as well), the user's identifier when it holds a user only, with the
    title and the description of the input; it returns the creation's error
    wrapped as "github graphql error", or the project the creation decoded
    when that project holds a URL, and panics when it holds none. *)
Theorem CreateProject_creates_for_the_owner (in_ : CreateProjectInput.t)
    (ownerQ : OwnerQ.t) (r1 : R) :
  CreateProjectInput.Owner in_ <> "" ->
  CreateProjectInput.Title in_ <> "" ->
  Query cl (QOwnerID (CreateProjectInput.Owner in_)) (fst w)
    = ((ownerQ, None), r1) ->
  forall ownerId,
    (exists org, OwnerQ.Organization ownerQ = Some org /\ ownerId = IDNode.ID org) \/
    (exists user, OwnerQ.Organization ownerQ = None /\
                  OwnerQ.User ownerQ = Some user /\ ownerId = IDNode.ID user) ->
  forall m merr r2,
    Mutate cl (MCreateProjectV2 ownerId (CreateProjectInput.Title in_)
                 (CreateProjectInput.Description in_)) r1 = ((m, merr), r2) ->
    CreateProject env in_ (Some cl) w =
      (match merr with
       | Some e => Returned (None, Some (fmt_Errorf_w "github graphql error" e))
       | None =>
           match URI_URL (ProjectNode.URL m) with
           | Some url =>
               Returned (Some (Project.mk (fmt_Sprint (ProjectNode.ID m))
                                 (ProjectNode.Number m) (ProjectNode.Title m) url),
                         None)
           | None => Panicked
           end
       end,
       (r2, (snd w ++ [EvQuery (QOwnerID (CreateProjectInput.Owner in_));
                       EvMutate (MCreateProjectV2 ownerId
                                   (CreateProjectInput.Title in_)
                                   (CreateProjectInput.Description in_))])%list)).
Proof.
  intros Howner Htitle HQ ownerId Hid m merr r2 HM.
  assert (Hpick : ownerIDOf ownerQ = Some ownerId).
  { unfold ownerIDOf.
    destruct Hid as [[org [-> ->]] | [user [-> [-> ->]]]]; reflexivity. }
  assert (Hdesc : (if negb (CreateProjectInput.Description in_ =? "")
                   then CreateProjectInput.Description in_ else "")
                  = CreateProjectInput.Description in_).
  { destruct (CreateProjectInput.Description in_ =? "") eqn:E; [|reflexivity].
    apply String.eqb_eq in E. now rewrite E. }
  apply String.eqb_neq in Howner. apply String.eqb_neq in Htitle.
  unfold_op. rewrite Howner, Htitle. cbn [orb]. rewrite HQ. cbn [fst snd].
  rewrite Hpick. cbn [fst snd]. rewrite Hdesc, HM. cbn [fst snd].
  rewrite <- app_assoc.
  destruct merr; [reflexivity|].
  unfold projectOfNode, URI_String.
  destruct (URI_URL (ProjectNode.URL m)); reflexivity.
Qed.

(** X13. With both identifiers given and the mutation answered without error,
    [AddProjectItem] returns an item with only its identifier when the
    answer holds no content, returns it with the content's identifier, kind,
    title, state and URL when the answer holds a content with a URL, and
    panics when the answer holds a content without a URL. *)
Theorem AddProjectItem_maps_the_added_item (in_ : AddProjectItemInput.t)
    (a : AddedItem.t) (r1 : R) :
  AddProjectItemInput.ProjectID in_ <> "" ->
  AddProjectItemInput.ContentID in_ <> "" ->
  Mutate cl (MAddProjectV2ItemById (Some (AddProjectItemInput.ProjectID in_))
                                   (Some (AddProjectItemInput.ContentID in_)))
         (fst w) = ((a, None), r1) ->
  fst (AddProjectItem env in_ (Some cl) w) =
    match AddedItem.Content a with
    | None =>
        Returned (Some (AddProjectItemOutput.mk
                          (ProjectItem.mk (fmt_Sprint (AddedItem.ID a))
                             "" "" "" "" "")), None)
    | Some content =>
        match URI_URL (Content.URL content) with
        | Some url =>
            Returned (Some (AddProjectItemOutput.mk
                              (ProjectItem.mk (fmt_Sprint (AddedItem.ID a))
                                 (fmt_Sprint (Content.ID content))
                                 (Content.Typename content)
                                 (Content.Title content) (Content.State content)
                                 url)), None)
        | None => Panicked
        end
    end.
Proof.
  intros Hp Hc HM.
  apply String.eqb_neq in Hp. apply String.eqb_neq in Hc.
  unfold_op. rewrite Hp, Hc. cbn [orb]. rewrite HM. cbn [fst snd].
  unfold itemOfAdded, URI_String.
  destruct (AddedItem.Content a) as [content|]; [|reflexivity].
  destruct (URI_URL (Content.URL content)); reflexivity.
Qed.

(** X14. With an item, a field and a value given, [UpdateProjectItemField] sends
    the mutation with the project identifier as it came, empty or not, and
    on an answer without error returns an item holding the decoded
    identifier and nothing else. *)
Theorem UpdateProjectItemField_returns_the_identifier
    (in_ : UpdateProjectItemFieldInput.t) (m : IDNode.t) (r1 : R) :
  UpdateProjectItemFieldInput.ItemID in_ <> "" ->
  UpdateProjectItemFieldInput.FieldID in_ <> "" ->
  UpdateProjectItemFieldInput.Value in_ <> "" ->
  Mutate cl (MUpdateProjectV2ItemFieldValue
               (Some (UpdateProjectItemFieldInput.ProjectID in_))
               (Some (UpdateProjectItemFieldInput.ItemID in_))
               (Some (UpdateProjectItemFieldInput.FieldID in_))
               (UpdateProjectItemFieldInput.Value in_))
         (fst w) = ((m, None), r1) ->
  fst (UpdateProjectItemField env in_ (Some cl) w) =
    Returned (Some (UpdateProjectItemFieldOutput.mk
                      (ProjectItem.mk (fmt_Sprint (IDNode.ID m)) "" "" "" "" "")),
              None).
Proof.
  intros Hi Hf Hv HM.
  apply String.eqb_neq in Hi. apply String.eqb_neq in Hf.
  apply String.eqb_neq in Hv.
  unfold_op. rewrite Hi, Hf, Hv. cbn [orb]. now rewrite HM.
Qed.

End MutationFacts.

(** Witness: the login that is both an organization and a user; and a
    creation answered with an empty object. *)
Lemma CreateProject_creates_for_the_owner_witness :
  CreateProject noTokenEnv
    (CreateProjectInput.mk "ambiguous-login" "Ambiguous Project" "")
    (Some ambiguousRemote) start
  = (Returned (Some (Project.mk "projAmbig" 3 "Ambiguous Project"
                       "http://example.com/ambigproject"), None),
     (tt, ([] ++ [EvQuery (QOwnerID "ambiguous-login");
                  EvMutate (MCreateProjectV2 (Some "orgAmbig")
                              "Ambiguous Project" "")])%list)) /\
  CreateProject noTokenEnv
    (CreateProjectInput.mk "org-login" "Project for Org" "")
    (Some bareRemote) start
  = (Panicked,
     (tt, ([] ++ [EvQuery (QOwnerID "org-login");
                  EvMutate (MCreateProjectV2 (Some "org123")
                              "Project for Org" "")])%list)).
Proof.
  split.
  - apply (CreateProject_creates_for_the_owner noTokenEnv ambiguousRemote start
             (CreateProjectInput.mk "ambiguous-login" "Ambiguous Project" "")
             (OwnerQ.mk (Some (IDNode.mk (Some "orgAmbig")))
                        (Some (IDNode.mk (Some "userAmbig")))) tt)
      with (ownerId := Some "orgAmbig")
           (m := ProjectNode.mk (Some "projAmbig") 3 "Ambiguous Project"
                   (mkURI (Some "http://example.com/ambigproject")))
           (merr := None).
    + discriminate.
    + discriminate.
    + reflexivity.
    + left. exists (IDNode.mk (Some "orgAmbig")). split; reflexivity.
    + reflexivity.
  - apply (CreateProject_creates_for_the_owner noTokenEnv bareRemote start
             (CreateProjectInput.mk "org-login" "Project for Org" "")
             (OwnerQ.mk (Some (IDNode.mk (Some "org123"))) None) tt)
      with (ownerId := Some "org123") (m := ProjectNode.zero) (merr := None).
    + discriminate.
    + discriminate.
    + reflexivity.
    + left. exists (IDNode.mk (Some "org123")). split; reflexivity.
    + reflexivity.
Defined.

(** Witness: TestAddProjectItem/success; and the same content answered
    without its [url]. *)
Lemma AddProjectItem_maps_the_added_item_witness :
  fst (AddProjectItem noTokenEnv (AddProjectItemInput.mk "proj123" "c1")
         (Some testRemote) start)
  = Returned (Some (AddProjectItemOutput.mk
                      (ProjectItem.mk "item2" "c1" "Issue" "Issue1" "OPEN"
                         "http://example.com/i1")), None) /\
  fst (AddProjectItem noTokenEnv (AddProjectItemInput.mk "proj123" "c1")
         (Some bareRemote) start) = Panicked.
Proof.
  split.
  - apply (AddProjectItem_maps_the_added_item noTokenEnv testRemote start
             (AddProjectItemInput.mk "proj123" "c1") testAdded tt).
    + discriminate.
    + discriminate.
    + reflexivity.
  - apply (AddProjectItem_maps_the_added_item noTokenEnv bareRemote start
             (AddProjectItemInput.mk "proj123" "c1")
             (AddedItem.mk (Some "item2")
                (Some (Content.mk "Issue" (Some "c1") "Issue1" "OPEN"
                         (mkURI None)))) tt).
    + discriminate.
    + discriminate.
    + reflexivity.
Defined.

(** Witness: TestUpdateProjectItemField/success, whose input has no project
    identifier. *)
Lemma UpdateProjectItemField_returns_the_identifier_witness :
  fst (UpdateProjectItemField noTokenEnv
         (UpdateProjectItemFieldInput.mk "" "item2" "field1" "new value")
         (Some testRemote) start)
  = Returned (Some (UpdateProjectItemFieldOutput.mk
                      (ProjectItem.mk "item2" "" "" "" "" "")), None).
Proof.
  apply (UpdateProjectItemField_returns_the_identifier noTokenEnv testRemote start
           (UpdateProjectItemFieldInput.mk "" "item2" "field1" "new value")
           (IDNode.mk (Some "item2")) tt).
  - discriminate.
  - discriminate.
  - discriminate.
  - reflexivity.
Defined.

(** ** Integers on the wire *)

Lemma Int_range (n : Z) : (-2147483648 <= Int n < 2147483648)%Z.
Proof.
  unfold Int.
  pose proof (Z.mod_pos_bound (n + 2147483648) 4294967296 eq_refl). lia.
Qed.

Lemma Int_small (n : Z) :
  (-2147483648 <= n < 2147483648)%Z -> Int n = n.
Proof.
  intros H. unfold Int. rewrite Z.mod_small by lia. lia.
Qed.

Lemma Int_wraps (n k : Z) : Int (n + k * 4294967296) = Int n.
Proof.
  unfold Int.
  replace (n + k * 4294967296 + 2147483648)%Z
    with (n + 2147483648 + k * 4294967296)%Z by lia.
  now rewrite Z_mod_plus_full.
Qed.

Section WireFacts.

Context {R : Type}.
Variables (env : Env R) (cl : Client R) (w : World R).

(** X15. A page size that fits 32 bits reaches the remote as it is, with the
    login (or project identifier) and the cursor of the input; a page size
    beyond 32 bits is reduced modulo 2^32, so that two sizes 2^32 apart give
    the same run. *)
Theorem page_size_is_sent_as_int32 (name after : string) (first : Z) :
  name <> "" ->
  ((-2147483648 <= first < 2147483648)%Z ->
   snd (snd (ListOrganizationProjects env
               (ListOrganizationProjectsInput.mk name first after) (Some cl) w))
     = (snd w ++ [EvQuery (QOrganizationProjects name first after)])%list /\
   snd (snd (ListUserProjects env
               (ListUserProjectsInput.mk name first after) (Some cl) w))
     = (snd w ++ [EvQuery (QUserProjects name first after)])%list /\
   snd (snd (GetProjectItems env
               (GetProjectItemsInput.mk name first after) (Some cl) w))
     = (snd w ++ [EvQuery (QProjectItems (Some name) first after)])%list) /\
  (forall k : Z,
   ListOrganizationProjects env
     (ListOrganizationProjectsInput.mk name (first + k * 4294967296) after)
     (Some cl) w
     = ListOrganizationProjects env
         (ListOrganizationProjectsInput.mk name first after) (Some cl) w /\
   ListUserProjects env
     (ListUserProjectsInput.mk name (first + k * 4294967296) after) (Some cl) w
     = ListUserProjects env
         (ListUserProjectsInput.mk name first after) (Some cl) w /\
   GetProjectItems env
     (GetProjectItemsInput.mk name (first + k * 4294967296) after) (Some cl) w
     = GetProjectItems env
         (GetProjectItemsInput.mk name first after) (Some cl) w).
Proof.
  intros Hname. apply String.eqb_neq in Hname. split.
  - intros Hfirst.
    repeat split; unfold_op; cbn; rewrite Hname, (Int_small _ Hfirst);
      repeat step_op; reflexivity.
  - intros k.
    repeat split; unfold_op; cbn; rewrite Hname, Int_wraps; reflexivity.
Qed.

(** X16. [GetProject] tests the number before narrowing it to 32 bits: a
    non-zero multiple of 2^32 passes the test and the remote is asked for
    project 0. *)
Theorem GetProject_number_wraps_to_zero (owner : string) (k : Z) :
  owner <> "" ->
  k <> 0%Z ->
  (-9223372036854775808 <= k * 4294967296 < 9223372036854775808)%Z ->
  snd (snd (GetProject env (GetProjectInput.mk owner (k * 4294967296))
              (Some cl) w))
    = (snd w ++ [EvQuery (QProject owner 0)])%list.
Proof.
  intros Howner Hk _. apply String.eqb_neq in Howner.
  assert (Hnz : (k * 4294967296 =? 0)%Z = false) by (apply Z.eqb_neq; lia).
  unfold_op. cbn. rewrite Howner, Hnz. cbn [orb].
  assert (Hint : Int (k * 4294967296) = 0%Z) by exact (Int_wraps 0 k).
  rewrite Hint.
  repeat step_op; reflexivity.
Qed.

End WireFacts.

Lemma page_size_is_sent_as_int32_witness :
  snd (snd (ListOrganizationProjects noTokenEnv
              (ListOrganizationProjectsInput.mk "test-org" 50 "abc")
              (Some testRemote) start))
  = ([] ++ [EvQuery (QOrganizationProjects "test-org" 50 "abc")])%list.
Proof.
  apply (page_size_is_sent_as_int32 noTokenEnv testRemote start
           "test-org" "abc" 50).
  - discriminate.
  - lia.
Defined.

Lemma GetProject_number_wraps_to_zero_witness :
  snd (snd (GetProject noTokenEnv (GetProjectInput.mk "test-owner" 4294967296)
              (Some testRemote) start))
  = ([] ++ [EvQuery (QProject "test-owner" 0)])%list.
Proof.
  apply (GetProject_number_wraps_to_zero noTokenEnv testRemote start
           "test-owner" 1).
  - discriminate.
  - discriminate.
  - lia.
Defined.

(** ** Tool handlers *)

Ltac unfold_handler :=
  unfold handler, ListOrganizationProjectsTool_handler,
    ListUserProjectsTool_handler, GetProjectTool_handler,
    GetProjectItemsTool_handler, CreateProjectTool_handler,
    AddProjectItemTool_handler, UpdateProjectItemFieldTool_handler.

Section ToolFacts.

Context {R Req float64 : Type}.
Variable int_of_float64 : float64 -> Z.
Variable requiredParam_string : Req -> string -> string * option error.
Variable requiredParam_float64 : Req -> string -> float64 * option error.
Variable json_encode : JSON.value -> string.
Variable getClient : M R (option (Client R) * option error).
Variable env : Env R.

Local Abbreviation handle :=
  (handler int_of_float64 requiredParam_string requiredParam_float64
     json_encode getClient env).
Local Abbreviation errorOf :=
  (paramError requiredParam_string requiredParam_float64).
Local Abbreviation call :=
  (callOf int_of_float64 requiredParam_string requiredParam_float64).

(** X17. A handler asks for the client before it looks at the request: when the
    getter fails, its error is the answer, whatever the request holds, and
    the world is as the getter left it. *)
Theorem handler_fails_without_client (t : ToolId) (req : Req) (w w1 : World R)
    client (e : error) :
  getClient w = ((client, Some e), w1) ->
  handle t req w = (Returned (None, Some e), w1).
Proof.
  intros H. destruct t; unfold_handler; unfold bind; rewrite H; reflexivity.
Qed.

(** X18. Every parameter a tool declares as required is enforced by its handler,
    in the declared order: when [requiredParam] reports an error for it and
    none for the required parameters declared before it, the handler returns
    that error and the operation is not run. *)
Theorem declared_required_parameters_are_enforced (t : ToolId) (req : Req)
    (w w1 : World R) client (before after : list ToolParam) (p : ToolParam)
    (e : error) :
  getClient w = ((client, None), w1) ->
  tparams (tool t) = (before ++ p :: after)%list ->
  required p = true ->
  Forall (fun p' => required p' = true -> errorOf req p' = None) before ->
  errorOf req p = Some e ->
  handle t req w = (Returned (None, Some e), w1).
Proof.
  intros Hc Hsplit Hreq Hbefore He.
  destruct t; cbn [tool tparams] in Hsplit;
    repeat (destruct before as [|? before];
            [ cbn [app] in Hsplit; injection Hsplit as <- <-
            | cbn [app] in Hsplit; injection Hsplit as <- Hsplit ]);
    try discriminate Hreq;
    try (destruct before; discriminate Hsplit);
    repeat match goal with
           | H : Forall _ (_ :: _) |- _ => inversion_clear H
           end;
    repeat match goal with
           | H : required _ = true -> errorOf req _ = None |- _ =>
               specialize (H eq_refl); cbn in H
           end;
    cbn in He; unfold_handler; unfold bind, ret; rewrite Hc;
    repeat match goal with
           | H : snd ?x = _ |- _ =>
               destruct x as [? ?] eqn:?; cbn [snd] in H; subst
           end;
    reflexivity.
Qed.

(** X19. When the getter succeeds and [requiredParam] reports no error for any
    parameter declared as required, the handler runs its operation on the
    values read, with the getter's client, whatever is reported for the
    optional parameters; it returns the operation's error as it is, or the
    serialized output as text, and a panic of the operation goes through
    it. *)
Theorem handler_runs_the_operation (t : ToolId) (req : Req) (w w1 : World R)
    client :
  getClient w = ((client, None), w1) ->
  Forall (fun p => required p = true -> errorOf req p = None) (tparams (tool t)) ->
  handle t req w =
    (match fst (run env (call t req) client w1) with
     | Panicked => Panicked
     | Returned res =>
         match snd res with
         | Some e => Returned (None, Some e)
         | None =>
             Returned
               (Some (NewToolResultText
                        (json_encode (marshal (call t req) (fst res)))),
                None)
         end
     end,
     snd (run env (call t req) client w1)).
Proof.
  intros Hc Hall.
  destruct t; cbn [tool tparams] in Hall;
    repeat match goal with
           | H : Forall _ (_ :: _) |- _ => inversion_clear H
           end;
    repeat match goal with
           | H : required _ = true -> errorOf req _ = None |- _ =>
               first [ specialize (H eq_refl); cbn in H | clear H ]
           end;
    unfold_handler; unfold bind, ret, respond; rewrite Hc;
    cbn [callOf run];
    repeat match goal with
           | |- context [requiredParam_string req ?n] =>
               destruct (requiredParam_string req n) as [? ?] eqn:?
           | |- context [requiredParam_float64 req ?n] =>
               destruct (requiredParam_float64 req n) as [? ?] eqn:?
           end;
    cbn [fst snd] in *; subst;
    match goal with
    | |- context [let (_, _) := ?op in _] =>
        destruct op as [[[out [e|]]|] w2]
    end; reflexivity.
Qed.

End ToolFacts.

(** Witness: a request without arguments to a getter that fails. *)
Lemma handler_fails_without_client_witness :
  testHandler failingGetClient GetProjectTool [] start
  = (Returned (None, Some (errors_New "no client")), start).
Proof.
  apply (handler_fails_without_client (fun n => n) argString argNumber
           (fun _ => "") failingGetClient noTokenEnv
           GetProjectTool [] start start None (errors_New "no client")).
  reflexivity.
Defined.

(** Witness: [update_project_item_field] without its project identifier. *)
Lemma declared_required_parameters_are_enforced_witness :
  testHandler testGetClient UpdateProjectItemFieldTool
    [ ("item_id", ArgString "item2"); ("field_id", ArgString "field1");
      ("value", ArgString "new value") ] start
  = (Returned (None, Some (errors_New "missing required parameter: project_id")),
     start).
Proof.
  apply (declared_required_parameters_are_enforced (fun n => n) argString
           argNumber (fun _ => "") testGetClient noTokenEnv
           UpdateProjectItemFieldTool
           [ ("item_id", ArgString "item2"); ("field_id", ArgString "field1");
             ("value", ArgString "new value") ]
           start start (Some testRemote) []
           [ mkParam "item_id" KString true "Item node ID";
             mkParam "field_id" KString true "Field node ID";
             mkParam "value" KString true "New value for the field" ]
           (mkParam "project_id" KString true "Project node ID")
           (errors_New "missing required parameter: project_id")).
  - reflexivity.
  - reflexivity.
  - reflexivity.
  - constructor.
  - reflexivity.
Defined.

(** Witness: [list_organization_projects] with the organization only. *)
Lemma handler_runs_the_operation_witness :
  fst (testHandler testGetClient ListOrganizationProjectsTool
         [ ("organization", ArgString "test-org") ] start)
  = Returned (Some (NewToolResultText ""), None).
Proof.
  unfold testHandler.
  rewrite (handler_runs_the_operation (fun n => n) argString argNumber
             (fun _ => "") testGetClient noTokenEnv
             ListOrganizationProjectsTool
             [ ("organization", ArgString "test-org") ]
             start start (Some testRemote) eq_refl).
  - reflexivity.
  - repeat constructor; discriminate.
Defined.

(** ** JSON shape of a page *)

Section JSONFacts.

Context {R : Type}.
Variables (env : Env R) (client : option (Client R)) (w : World R).

Lemma member_after_omitempty (first : string * JSON.value) (cursor : string)
    (more : bool) :
  fst first <> "has_next_page" ->
  fst first <> "end_cursor" ->
  let v := JSON.Object ([first] ++ JSON.omitempty "end_cursor" cursor
                          ++ [("has_next_page", JSON.Bool more)])%list in
  JSON.member "has_next_page" v = Some (JSON.Bool more) /\
  JSON.member "end_cursor" v =
    (if cursor =? "" then None else Some (JSON.Str cursor)).
Proof.
  destruct first as [k x]. cbn [fst]. intros H1 H2.
  apply String.eqb_neq in H1. apply String.eqb_neq in H2.
  unfold JSON.omitempty. cbn [JSON.member app JSON.lookup].
  rewrite H1, H2. destruct (cursor =? ""); cbn; split; reflexivity.
Qed.

(** X20. The page a list operation returns marshals to an object whose
    ["projects"] (or ["items"]) member is an array, never [null], whose
    ["has_next_page"] member is always there, and whose ["end_cursor"]
    member is there exactly when the cursor is not empty. *)
Theorem pages_marshal_to_arrays :
  (forall in_ out,
      fst (ListOrganizationProjects env in_ client w) = Returned (Some out, None) ->
      let v := JSON.ofListOrganizationProjectsOutput out in
      (exists l, ListOrganizationProjectsOutput.Projects out = Some l /\
                 JSON.member "projects" v = Some (JSON.Array (map JSON.ofProject l))) /\
      JSON.member "has_next_page" v
        = Some (JSON.Bool (ListOrganizationProjectsOutput.HasNextPage out)) /\
      JSON.member "end_cursor" v
        = (if ListOrganizationProjectsOutput.EndCursor out =? "" then None
           else Some (JSON.Str (ListOrganizationProjectsOutput.EndCursor out)))) /\
  (forall in_ out,
      fst (ListUserProjects env in_ client w) = Returned (Some out, None) ->
      let v := JSON.ofListOrganizationProjectsOutput out in
      (exists l, ListOrganizationProjectsOutput.Projects out = Some l /\
                 JSON.member "projects" v = Some (JSON.Array (map JSON.ofProject l))) /\
      JSON.member "has_next_page" v
        = Some (JSON.Bool (ListOrganizationProjectsOutput.HasNextPage out)) /\
      JSON.member "end_cursor" v
        = (if ListOrganizationProjectsOutput.EndCursor out =? "" then None
           else Some (JSON.Str (ListOrganizationProjectsOutput.EndCursor out)))) /\
  (forall in_ out,
      fst (GetProjectItems env in_ client w) = Returned (Some out, None) ->
      let v := JSON.ofGetProjectItemsOutput out in
      (exists l, GetProjectItemsOutput.Items out = Some l /\
                 JSON.member "items" v = Some (JSON.Array (map JSON.ofProjectItem l))) /\
      JSON.member "has_next_page" v
        = Some (JSON.Bool (GetProjectItemsOutput.HasNextPage out)) /\
      JSON.member "end_cursor" v
        = (if GetProjectItemsOutput.EndCursor out =? "" then None
           else Some (JSON.Str (GetProjectItemsOutput.EndCursor out)))).
Proof.
  (split; [|split]); intros in_ out H;
    unfold ListOrganizationProjects, ListUserProjects, GetProjectItems, bind, ret
      in H;
    (destruct (_ =? "") in H; [discriminate H|]);
    (destruct (defaultClient env client w) as [[c|e] w1]; [|discriminate H]);
    unfold query in H;
    match type of H with
    | context [Query c ?q (fst w1)] =>
        destruct (Query c q (fst w1)) as [[d [e|]] r]
    end; cbn [fst snd] in H; try discriminate H.
  1, 2: destruct (projectsPage d) as [page|] eqn:Hpage; [|discriminate H];
    cbn in H; injection H as <-;
    destruct (projectsPage_inv d page Hpage) as [l [_ ->]].
  3: destruct (itemsPage d) as [page|] eqn:Hpage; [|discriminate H];
    cbn in H; injection H as <-;
    destruct (itemsPage_inv d page Hpage) as [l [_ ->]].
  all: cbv zeta;
    unfold JSON.ofListOrganizationProjectsOutput, JSON.ofGetProjectItemsOutput;
    cbn [ListOrganizationProjectsOutput.Projects
         ListOrganizationProjectsOutput.EndCursor
         ListOrganizationProjectsOutput.HasNextPage
         GetProjectItemsOutput.Items GetProjectItemsOutput.EndCursor
         GetProjectItemsOutput.HasNextPage JSON.ofSlice].
  all: split; [eexists; split; reflexivity|].
  all: apply member_after_omitempty; cbn [fst]; discriminate.
Qed.

End JSONFacts.

(** Witness: the page of TestListOrganizationProjects/success. *)
Lemma pages_marshal_to_arrays_witness :
  JSON.member "has_next_page"
    (JSON.ofListOrganizationProjectsOutput
       (ListOrganizationProjectsOutput.mk
          (Some [ Project.mk "1" 1 "Proj1" "http://example.com/p1";
                  Project.mk "2" 2 "Proj2" "http://example.com/p2" ])
          "abc" false))
  = Some (JSON.Bool false).
Proof.
  destruct (pages_marshal_to_arrays noTokenEnv (Some testRemote) start)
    as (Hlist & _ & _).
  apply (Hlist (ListOrganizationProjectsInput.mk "test-org" 0 "")
               (ListOrganizationProjectsOutput.mk
                  (Some [ Project.mk "1" 1 "Proj1" "http://example.com/p1";
                          Project.mk "2" 2 "Proj2" "http://example.com/p2" ])
                  "abc" false)).
  reflexivity.
Defined.


(** Witness of [CreateProject_owner_not_found]: a remote whose answer to
    the combined lookup holds neither an organization nor a user. *)
Lemma CreateProject_owner_not_found_witness :
  CreateProject noTokenEnv
    (CreateProjectInput.mk "ghost-login" "Project for Ghost" "")
    (Some ownerIsUserRemote) start
  = (Returned (None, Some (errors_New "owner not found")),
     (tt, ([] ++ [EvQuery (QOwnerID "ghost-login")])%list)).
Proof.
  apply (CreateProject_owner_not_found noTokenEnv (Some ownerIsUserRemote) start
           (CreateProjectInput.mk "ghost-login" "Project for Ghost" "")
           ownerIsUserRemote tt).
  - discriminate.
  - discriminate.
  - reflexivity.
  - reflexivity.
Defined.
